(** * simple-jsonrpc: a JSON-RPC 2.0 client over fetch, and its mock transport

    Shallow embedding of [src/index.ts].

    - JavaScript values are a tree type [value]; [number]s are modelled by
      their exact rational value (only comparisons are ever made on them).
    - Every caller-supplied function (hooks, the id generator, the
      transport, the mock handlers) may throw and may change the outside
      world: it is a function in the monad [M W], over a world [W] that the
      development never inspects.
    - A promise is modelled by the way it ends: [Resolved], [Rejected], or
      [Pending] when nothing ever settles it.
    - What the platform provides (number printing, [JSON.parse] of arbitrary
      text, URL validation) is a parameter, the class [Platform]. *)

From Stdlib Require Import ZArith QArith Qround Ascii String List Bool Lia.
From Stdlib Require Import DecimalString.
From stdpp Require Import base option gmap strings.

Import ListNotations.
Set Warnings "-register-all".
Local Open Scope string_scope.
Local Open Scope list_scope.

(** ** Values *)

(** A JavaScript [number]. NaN and the infinities, which have no JSON text,
    are left out. *)
Definition number : Type := Q.

Definition num_of_Z (z : Z) : number := inject_Z z.

(** [a <= b], [a >= b] and [a === b] on numbers. *)
Definition num_le (a b : number) : bool := Qle_bool a b.
Definition num_ge (a b : number) : bool := Qle_bool b a.
Definition num_eq (a b : number) : bool := Qeq_bool a b.

Inductive value : Type :=
| VUndefined
| VNull
| VBool (b : bool)
| VNum (n : number)
| VStr (s : string)
| VBigInt (z : Z)
| VSymbol (description : string)
| VFunction (name : string)
| VArr (items : list value)
| VObj (props : list (string * value)).

(** The [typeof] operator. *)
Definition typeof (v : value) : string :=
  match v with
  | VUndefined => "undefined"
  | VNull => "object"
  | VBool _ => "boolean"
  | VNum _ => "number"
  | VStr _ => "string"
  | VBigInt _ => "bigint"
  | VSymbol _ => "symbol"
  | VFunction _ => "function"
  | VArr _ => "object"
  | VObj _ => "object"
  end.

Definition Array_isArray (v : value) : bool :=
  match v with
  | VArr _ => true
  | _ => false
  end.

(** ** Errors *)

Record RPCError : Type := mkRPCError {
  rpc_name : string;
  code : number;
  message : string;
  data : value;
}.

Record HttpError : Type := mkHttpError {
  http_name : string;
  status : number;
  statusText : string;
  http_message : string;
}.

(** Whatever a [throw] can carry, and so whatever a promise can reject
    with. *)
Inductive error : Type :=
| ERPC (e : RPCError)
| EHttp (e : HttpError)
| ETypeError (msg : string)
| ESyntaxError (msg : string)
| ERangeError (msg : string)
| EThrown (v : value).

(** A completion: [inl e] is [throw e], [inr a] is a normal return. *)
Definition completion (A : Type) : Type := (error + A)%type.

(** *** The enum [RPCErrorCode] *)

Inductive RPCErrorCode : Type :=
| ParseError
| InvalidRequest
| MethodNotFound
| InvalidParams
| InternalError.

Definition RPCErrorCode_value (c : RPCErrorCode) : Z :=
  match c with
  | ParseError => -32700
  | InvalidRequest => -32600
  | MethodNotFound => -32601
  | InvalidParams => -32602
  | InternalError => -32603
  end%Z.

Definition RPCErrorCode_name (c : RPCErrorCode) : string :=
  match c with
  | ParseError => "ParseError"
  | InvalidRequest => "InvalidRequest"
  | MethodNotFound => "MethodNotFound"
  | InvalidParams => "InvalidParams"
  | InternalError => "InternalError"
  end.

Definition RPCErrorCode_members : list RPCErrorCode :=
  [ParseError; InvalidRequest; MethodNotFound; InvalidParams; InternalError].

(** The reverse mapping [RPCErrorCode[code]] of a numeric enum: the name of
    the member whose value is [code], [undefined] ([None]) when there is
    none. *)
Definition RPCErrorCode_reverse (c : number) : option string :=
  match List.find (fun m => num_eq c (num_of_Z (RPCErrorCode_value m)))
                  RPCErrorCode_members with
  | Some m => Some (RPCErrorCode_name m)
  | None => None
  end.

(** *** String methods used by the constructor *)

Definition is_upper (c : ascii) : bool :=
  (65 <=? nat_of_ascii c)%nat && (nat_of_ascii c <=? 90)%nat.

Definition is_space (c : ascii) : bool :=
  let n := nat_of_ascii c in
  ((9 <=? n)%nat && (n <=? 13)%nat) || (n =? 32)%nat.

Definition lower_ascii (c : ascii) : ascii :=
  if is_upper c then ascii_of_nat (nat_of_ascii c + 32) else c.

(** [s.replace(/([A-Z])/g, ' $1')] *)
Fixpoint space_before_capitals (s : string) : string :=
  match s with
  | EmptyString => EmptyString
  | String c rest =>
      if is_upper c
      then String " "%char (String c (space_before_capitals rest))
      else String c (space_before_capitals rest)
  end.

Fixpoint trimStart (s : string) : string :=
  match s with
  | EmptyString => EmptyString
  | String c rest => if is_space c then trimStart rest else s
  end.

Fixpoint trimEnd (s : string) : string :=
  match s with
  | EmptyString => EmptyString
  | String c rest =>
      match trimEnd rest with
      | EmptyString => if is_space c then EmptyString else String c EmptyString
      | rest' => String c rest'
      end
  end.

Definition trim (s : string) : string := trimEnd (trimStart s).

Fixpoint toLowerCase (s : string) : string :=
  match s with
  | EmptyString => EmptyString
  | String c rest => String (lower_ascii c) (toLowerCase rest)
  end.

Definition humanize (s : string) : string :=
  toLowerCase (trim (space_before_capitals s)).

(** Truthiness of an optional string: [!message] is [negb] of this. *)
Definition truthy_message (m : option string) : bool :=
  match m with
  | None => false
  | Some EmptyString => false
  | Some (String _ _) => true
  end.

(** [new RPCError(code, message, data)]. When the guard holds and
    [RPCErrorCode[code]] is [undefined], calling [.replace] on it throws a
    TypeError. *)
Definition RPCError_new (c : number) (msg : option string) (d : value)
  : completion RPCError :=
  if ((num_le c (num_of_Z (-32600)) && num_ge c (num_of_Z (-32603)))
      || num_eq c (num_of_Z (-32700)))
     && negb (truthy_message msg)
  then
    match RPCErrorCode_reverse c with
    | Some name => inr (mkRPCError "RPCError" c (humanize name) d)
    | None =>
        inl (ETypeError "Cannot read properties of undefined (reading 'replace')")
    end
  else
    inr (mkRPCError "RPCError" c
           (match msg with Some m => m | None => "Unknown error" end) d).

(** [new HttpError(status, statusText)]; the message is the template
    [`${status} ${statusText}`], and printing a number is the platform's. *)
Definition HttpError_new (toString : number -> string)
    (st : number) (stText : string) : HttpError :=
  mkHttpError "HttpError" st stText (toString st ++ " " ++ stText).

(** ** The JSON-RPC envelopes *)

(** [type RPCId = string | number | null] *)
Inductive RPCId : Type :=
| IdStr (s : string)
| IdNum (n : number)
| IdNull.

(** Truthiness of [rpcRequest.id], a field that may be missing. *)
Definition truthy_id (i : option RPCId) : bool :=
  match i with
  | None => false
  | Some IdNull => false
  | Some (IdStr s) => negb (String.eqb s EmptyString)
  | Some (IdNum n) => negb (num_eq n (num_of_Z 0))
  end.

(** [params] is [VUndefined] when the field is missing; [id] is optional
    ([id?: RPCId]). *)
Record RPCRequest : Type := mkRPCRequest {
  req_jsonrpc : string;
  req_method : string;
  req_params : value;
  req_id : option RPCId;
}.

(** [result] is [VUndefined] when the field is missing. The declared type
    of [id] is [RPCId], but the mock transport copies the request's
    optional [id] into it, so it is optional here. *)
Record RPCResponse : Type := mkRPCResponse {
  res_jsonrpc : string;
  res_result : value;
  res_error : option RPCError;
  res_id : option RPCId;
}.

(** ** JSON text *)

(** The value [JSON.parse(JSON.stringify(v))]: [inr None] when
    [JSON.stringify] returns [undefined], a TypeError on a BigInt. Inside an
    array a value without JSON text becomes [null], inside an object its
    property is left out. The functions of a [value] are opaque and none
    is called: the objects serialised here are taken to have no [toJSON]
    method, their own or inherited (a [Date] is outside [value]). *)
Fixpoint JSON_image (v : value) : completion (option value) :=
  match v with
  | VUndefined | VSymbol _ | VFunction _ => inr None
  | VBigInt _ => inl (ETypeError "Do not know how to serialize a BigInt")
  | VNull | VBool _ | VNum _ | VStr _ => inr (Some v)
  | VArr items =>
      let fix elements (l : list value) : completion (list value) :=
        match l with
        | [] => inr []
        | x :: rest =>
            match JSON_image x with
            | inl e => inl e
            | inr o =>
                match elements rest with
                | inl e => inl e
                | inr rest' =>
                    inr (match o with Some x' => x' | None => VNull end :: rest')
                end
            end
        end in
      match elements items with
      | inl e => inl e
      | inr items' => inr (Some (VArr items'))
      end
  | VObj props =>
      let fix properties (l : list (string * value))
        : completion (list (string * value)) :=
        match l with
        | [] => inr []
        | (k, x) :: rest =>
            match JSON_image x with
            | inl e => inl e
            | inr o =>
                match properties rest with
                | inl e => inl e
                | inr rest' =>
                    inr (match o with
                         | Some x' => (k, x') :: rest'
                         | None => rest'
                         end)
                end
            end
        end in
      match properties props with
      | inl e => inl e
      | inr props' => inr (Some (VObj props'))
      end
  end.

(** A field of an object being serialised: missing from the text when its
    value has no JSON text. *)
Definition JSON_field (v : value) : completion value :=
  match JSON_image v with
  | inl e => inl e
  | inr (Some v') => inr v'
  | inr None => inr VUndefined
  end.

(** A string that is sent or received as a body. [JSON a] is the text
    [JSON.stringify] wrote for [a], identified with what [JSON.parse] reads
    back from it; [Raw s] is any other string. *)
Inductive text (A : Type) : Type :=
| JSON (a : A)
| Raw (s : string).
Arguments JSON {A} a.
Arguments Raw {A} s.

Definition JSON_stringify_request (r : RPCRequest)
  : completion (text RPCRequest) :=
  match JSON_field (req_params r) with
  | inl e => inl e
  | inr p => inr (JSON (mkRPCRequest (req_jsonrpc r) (req_method r) p (req_id r)))
  end.

Definition JSON_stringify_error (e : RPCError) : completion RPCError :=
  match JSON_field (data e) with
  | inl t => inl t
  | inr d => inr (mkRPCError (rpc_name e) (code e) (message e) d)
  end.

Definition JSON_stringify_response (r : RPCResponse)
  : completion (text RPCResponse) :=
  match JSON_field (res_result r) with
  | inl t => inl t
  | inr res =>
      match res_error r with
      | None => inr (JSON (mkRPCResponse (res_jsonrpc r) res None (res_id r)))
      | Some e =>
          match JSON_stringify_error e with
          | inl t => inl t
          | inr e' =>
              inr (JSON (mkRPCResponse (res_jsonrpc r) res (Some e') (res_id r)))
          end
      end
  end.

(** ** The platform *)

Record URL : Type := mkURL { href : string }.

(** What the JavaScript platform provides and the repository only calls:
    printing a number, the [URL] constructor (a TypeError on an invalid
    URL), and [JSON.parse] of a string that is not known to come from
    [JSON.stringify], read at the type the source casts it to. *)
Class Platform : Type := {
  Number_toString : number -> string;
  URL_new : string -> completion URL;
  JSON_parse_request : string -> completion RPCRequest;
  JSON_parse_response : string -> completion RPCResponse;
}.

(** ** Effects *)

(** A JavaScript function called by the repository: it reads and changes
    the world, and either returns or throws. *)
Definition M (W A : Type) : Type := W -> completion A * W.

Definition ret {W A} (a : A) : M W A := fun w => (inr a, w).

Definition throw {W A} (e : error) : M W A := fun w => (inl e, w).

Definition bind {W A B} (m : M W A) (k : A -> M W B) : M W B :=
  fun w =>
    match m w with
    | (inl e, w') => (inl e, w')
    | (inr a, w') => k a w'
    end.

(** A pure computation that may throw. *)
Definition lift {W A} (c : completion A) : M W A := fun w => (c, w).

(** [try { body } catch (e) { handler(e) }] *)
Definition try_catch {W A} (body : M W A) (handler : error -> M W A) : M W A :=
  fun w =>
    match body w with
    | (inl e, w') => handler e w'
    | (inr a, w') => (inr a, w')
    end.

Declare Scope js_scope.
Delimit Scope js_scope with js.
Notation "'let*' x ':=' m 'in' k" := (bind m (fun x => k))
  (at level 10, x name, m at level 100, k at level 200) : js_scope.

(** How a promise ends. [Pending]: neither [resolve] nor [reject] is ever
    called. *)
Inductive settled (A : Type) : Type :=
| Resolved (a : A)
| Rejected (e : error)
| Pending.
Arguments Resolved {A} a.
Arguments Rejected {A} e.
Arguments Pending {A}.

(** ** Request and response objects *)

(** A value of an option of [RequestInit]. Strings are [text]: the body is
    one. [IHeaders] is an object. *)
Inductive init_value : Type :=
| IUndefined
| INull
| IString (t : text RPCRequest)
| IHeaders (h : list (string * string)).

(** [RequestInit], an object used as a record of options: its own
    properties. *)
Abbreviation RequestInit := (gmap string init_value).

(** [ResponseInit] *)
Record ResponseInit : Type := mkResponseInit {
  init_status : option number;
  init_statusText : option string;
  init_headers : list (string * string);
}.

Record RequestContext : Type := mkRequestContext {
  ctx_url : URL;
  ctx_request : RequestInit;
}.

Section Pipeline.

Context {W : Type} {P : Platform}.

Local Open Scope js_scope.

(** What [request] needs of a [Response]: the transport collaborator's
    [{ok, status, statusText, json()}]. *)
Record Response : Type := mkResponse {
  ok : bool;
  r_status : number;
  r_statusText : string;
  json : M W RPCResponse;
}.

Record ResponseContext : Type := mkResponseContext {
  rpcResponse : RPCResponse;
  response : Response;
  ctx_data : value;
}.

(** [options.options]; [idGenerator: false] and a missing [idGenerator] are
    both [None]. *)
Record Hooks : Type := mkHooks {
  beforeFetch : option (RequestContext -> M W RequestContext);
  onResponse : option (ResponseContext -> M W ResponseContext);
  onError : option (error -> M W error);
  idGenerator : option (M W RPCId);
}.

Record RPCFetchOptions : Type := mkRPCFetchOptions {
  url : string;
  options : option Hooks;
  fetchOptions : option RequestInit;
}.

(** The transport, [typeof fetch]. A rejected promise and a synchronous
    throw are both [inl]: the call is awaited inside the [try]. *)
Definition Fetch : Type := URL -> RequestInit -> M W Response.

(** *** [createFetch] *)

Definition defaultRequestInit : RequestInit :=
  {[ "headers" := IHeaders [("Content-Type", "application/json")];
     "method" := IString (Raw "POST") ]}.

Definition userRequestInit (o : RPCFetchOptions) : RequestInit :=
  match fetchOptions o with
  | Some init => init
  | None => ∅
  end.

(** [{...defaultRequestInit, ...userRequestInit}]: the later spread wins. *)
Definition generateRequestInit (o : RPCFetchOptions) : RequestInit :=
  userRequestInit o ∪ defaultRequestInit.

Definition extractParams (params : list value) : value :=
  if (length params =? 0)%nat then VUndefined
  else if (length params =? 1)%nat
          && String.eqb (typeof (nth 0 params VUndefined)) "object"
          && negb (Array_isArray (nth 0 params VUndefined))
       then nth 0 params VUndefined
       else VArr params.

(** [options.options?.f ?? default] *)
Definition hook {A} (o : RPCFetchOptions)
    (f : Hooks -> option (A -> M W A)) : A -> M W A :=
  match options o with
  | Some h => match f h with Some g => g | None => ret end
  | None => ret
  end.

(** [options.options?.idGenerator ? options.options.idGenerator() : null] *)
Definition generateId (o : RPCFetchOptions) : M W RPCId :=
  match options o with
  | Some h => match idGenerator h with
              | Some g => g
              | None => ret IdNull
              end
  | None => ret IdNull
  end.

(** The synchronous part of [request], up to the call of the before-send
    hook. A throw here leaves [request] before any promise exists. *)
Definition prepare (o : RPCFetchOptions) (method : string)
    (params : list value) : M W RequestContext :=
  let* id := generateId o in
  let body := mkRPCRequest "2.0" method (extractParams params) (Some id) in
  let preRequestInit := generateRequestInit o in
  let* text := lift (JSON_stringify_request body) in
  let preRequestInit := <[ "body" := IString text ]> preRequestInit in
  let* u := lift (URL_new (url o)) in
  hook o beforeFetch (mkRequestContext u preRequestInit).

(** The [try] block of the promise executor. It returns how it settled the
    promise: [reject(...); return] for a response that is not ok,
    [resolve(...)] at its end. *)
Definition attempt (o : RPCFetchOptions) (fetch_ : Fetch)
    (u : URL) (request : RequestInit) : M W (settled ResponseContext) :=
  let* response := fetch_ u request in
  if negb (ok response)
  then ret (Rejected (EHttp (HttpError_new Number_toString
                               (r_status response) (r_statusText response))))
  else
    let* rpcResponse := json response in
    let result := mkResponseContext rpcResponse response VUndefined in
    match res_error rpcResponse with
    | Some e =>
        let* err := lift (RPCError_new (code e) (Some (message e)) (data e)) in
        throw (ERPC err)
    | None =>
        let result :=
          mkResponseContext rpcResponse response (res_result rpcResponse) in
        let* r := hook o onResponse result in
        ret (Resolved r)
    end.

(** The [catch] block: [reject(onError(e))]. *)
Definition recover (o : RPCFetchOptions) (e : error)
  : M W (settled ResponseContext) :=
  let* e' := hook o onError e in
  ret (Rejected e').

(** The promise built by [request]. When the [catch] block itself throws,
    only the promise of the async executor rejects, which nobody holds:
    the promise returned to the caller stays pending. *)
Definition executor (o : RPCFetchOptions) (fetch_ : Fetch)
    (u : URL) (request : RequestInit) (w : W) : settled ResponseContext * W :=
  match try_catch (attempt o fetch_ u request) (recover o) w with
  | (inr s, w') => (s, w')
  | (inl _, w') => (Pending, w')
  end.

(** [createFetch(options, fetch_).request(method, ...params)]: [inl e] when
    the call throws, [inr p] when it returns a promise that ends as [p]. *)
Definition request (o : RPCFetchOptions) (fetch_ : Fetch)
    (method : string) (params : list value)
  : M W (settled ResponseContext) :=
  fun w =>
    match prepare o method params w with
    | (inl e, w') => (inl e, w')
    | (inr ctx, w') =>
        let (s, w'') := executor o fetch_ (ctx_url ctx) (ctx_request ctx) w' in
        (inr s, w'')
    end.

End Pipeline.

(** ** The mock transport *)

Definition createMockRPCResponse (result : value) : RPCResponse :=
  mkRPCResponse "2.0" result None (Some IdNull).

Definition createMockRPCErrorResponse (c : number) (msg : option string)
    (d : value) : completion RPCResponse :=
  match RPCError_new c msg d with
  | inl t => inl t
  | inr e => inr (mkRPCResponse "2.0" VUndefined (Some e) (Some IdNull))
  end.

(** *** The [Response] constructor of the Fetch standard *)

(** Conversion of a number to [unsigned short]: truncate, then reduce
    modulo 2^16. *)
Definition to_unsigned_short (n : number) : Z :=
  (if Qle_bool 0 n then Qfloor n else Qceiling n) mod 65536.

(** A reason phrase: tabs, spaces, visible ASCII and bytes above 127. *)
Definition is_reason_char (c : ascii) : bool :=
  let n := nat_of_ascii c in
  (n =? 9)%nat || ((32 <=? n)%nat && (n <=? 126)%nat) || (128 <=? n)%nat.

Fixpoint is_reason_phrase (s : string) : bool :=
  match s with
  | EmptyString => true
  | String c rest => is_reason_char c && is_reason_phrase rest
  end.

Definition is_null_body_status (st : Z) : bool :=
  ((st =? 101) || (st =? 103) || (st =? 204) || (st =? 205) || (st =? 304))%Z.

(** *** The members of [Object.prototype] *)

(** What a property read finds on [Object.prototype], by what it does when
    it is called as a plain function, with [this] undefined:
    - [ObjectFunction] is [constructor], the function [Object], which
      returns its first argument when that is an object;
    - [ObjectToString] is [toString], which returns the string
      [[object Undefined]];
    - [NeedsThis] is a method that converts [this] to an object and so
      throws a TypeError;
    - [NotCallable] is [__proto__], the prototype object itself. *)
Inductive Object_member : Type :=
| ObjectFunction
| ObjectToString
| NeedsThis
| NotCallable.

Definition Object_prototype (k : string) : option Object_member :=
  if String.eqb k "constructor" then Some ObjectFunction
  else if String.eqb k "toString" then Some ObjectToString
  else if String.eqb k "__proto__" then Some NotCallable
  else if existsb (String.eqb k)
            ["valueOf"; "hasOwnProperty"; "isPrototypeOf";
             "propertyIsEnumerable"; "toLocaleString"; "__defineGetter__";
             "__defineSetter__"; "__lookupGetter__"; "__lookupSetter__"]
  then Some NeedsThis
  else None.

(** The text [JSON.stringify] writes for a string that needs no escape. *)
Definition JSON_string_text (s : string) : string :=
  String (ascii_of_nat 34) (s ++ String (ascii_of_nat 34) EmptyString).

(** The JSON text of a request, read as an [RPCResponse]: it has no
    [result] and no [error]. *)
Definition read_as_response (r : RPCRequest) : RPCResponse :=
  mkRPCResponse (req_jsonrpc r) VUndefined None (req_id r).

Section Mock.

Context {W : Type} {P : Platform}.

Local Open Scope js_scope.

(** [response.json()] on a response built from the string [body]. *)
Definition body_json (body : text RPCResponse) : M W RPCResponse :=
  match body with
  | JSON r => ret r
  | Raw s => lift (JSON_parse_response s)
  end.

(** [new Response(body, init)] with a string body: the status defaults to
    200 and the status text to the empty string; [ok] is a status in
    200..299. *)
Definition Response_new (body : text RPCResponse) (init : option ResponseInit)
  : completion (@Response W) :=
  let st := match init with
            | Some i => match init_status i with
                        | Some n => to_unsigned_short n
                        | None => 200%Z
                        end
            | None => 200%Z
            end in
  let stText := match init with
                | Some i => match init_statusText i with
                            | Some t => t
                            | None => EmptyString
                            end
                | None => EmptyString
                end in
  if negb ((200 <=? st)%Z && (st <=? 599)%Z)
  then inl (ERangeError "The status provided is outside the range [200, 599].")
  else if negb (is_reason_phrase stText)
  then inl (ETypeError "Invalid statusText")
  else if is_null_body_status st
  then inl (ETypeError "Response with null body status cannot have body")
  else inr (mkResponse ((200 <=? st)%Z && (st <=? 299)%Z)
              (num_of_Z st) stText (body_json body)).

(** [type MockRPCAction]: a handler returns an [RPCResponse] ([inl]) or an
    [HttpError] ([inr]). *)
Definition MockRPCAction : Type :=
  RPCRequest -> RequestInit -> M W (RPCResponse + HttpError).

(** [JSON.parse(request!.body as string) as RPCRequest], up to the read
    of [rpcRequest.method]. A missing body reads as the text [undefined],
    an object as [[object Object]]: neither is JSON. The body [null] reads
    as the text [null], which parses to [null], and the read of [method]
    on it throws a TypeError. *)
Definition parse_body (request : RequestInit) : completion RPCRequest :=
  match request !! "body" with
  | Some (IString (JSON r)) => inr r
  | Some (IString (Raw s)) => JSON_parse_request s
  | Some (IHeaders _) =>
      inl (ESyntaxError "Unexpected token 'o', [object Object] is not valid JSON")
  | Some INull =>
      inl (ETypeError "Cannot read properties of null (reading 'method')")
  | Some IUndefined | None =>
      inl (ESyntaxError "undefined is not valid JSON")
  end.

(** What the mock does when [actions[rpcRequest.method]] is not a property
    of [actions] itself but a member of [Object.prototype]: the member is
    truthy, so it is called as if it were a handler, and what it returns is
    sent as if it were a response. The code of the module is strict: an
    assignment to a property of a string throws. *)
Definition inherited_call (m : Object_member) (rpcRequest : RPCRequest)
  : M W Response :=
  match m with
  | NotCallable => throw (ETypeError "action is not a function")
  | NeedsThis =>
      throw (ETypeError "Cannot convert undefined or null to object")
  | ObjectFunction =>
      (* [response] is [rpcRequest] itself: the assignment of the id
         changes nothing *)
      let* _ := lift (JSON_stringify_request rpcRequest) in
      lift (Response_new (JSON (read_as_response rpcRequest))
              (Some (mkResponseInit (Some (num_of_Z 200)) (Some "OK")
                       [("Content-Type", "application/json")])))
  | ObjectToString =>
      if truthy_id (req_id rpcRequest)
      then throw (ETypeError
                    "Cannot create property 'id' on string '[object Undefined]'")
      else
        lift (Response_new (Raw (JSON_string_text "[object Undefined]"))
                (Some (mkResponseInit (Some (num_of_Z 200)) (Some "OK")
                         [("Content-Type", "application/json")])))
  end.

(** [createMockFetch(actions, options)]. [actions] is an ordinary object,
    as an object literal is: the map holds its own properties, the
    handlers, and a name that is not among them is looked up on
    [Object.prototype]. The delay only postpones the answer and is not
    modelled. A throw anywhere in the async function rejects the promise
    it returns. *)
Definition createMockFetch (actions : gmap string MockRPCAction)
  : @Fetch W :=
  fun (_ : URL) (request : RequestInit) =>
    let* rpcRequest := lift (parse_body request) in
    match actions !! req_method rpcRequest with
    | None =>
        match Object_prototype (req_method rpcRequest) with
        | Some member => inherited_call member rpcRequest
        | None =>
            let* err := lift (RPCError_new
                                (num_of_Z (RPCErrorCode_value MethodNotFound))
                                None VUndefined) in
            let* body := lift (JSON_stringify_response
                                 (mkRPCResponse "2.0" VUndefined (Some err)
                                    (req_id rpcRequest))) in
            lift (Response_new body None)
        end
    | Some action =>
        let* response := action rpcRequest request in
        match response with
        | inr httpError =>
            lift (Response_new (Raw (http_message httpError))
                    (Some (mkResponseInit (Some (status httpError))
                             (Some (statusText httpError)) [])))
        | inl response =>
            let response :=
              if truthy_id (req_id rpcRequest)
              then mkRPCResponse (res_jsonrpc response) (res_result response)
                     (res_error response) (req_id rpcRequest)
              else response in
            let* body := lift (JSON_stringify_response response) in
            lift (Response_new body
                    (Some (mkResponseInit (Some (num_of_Z 200)) (Some "OK")
                             [("Content-Type", "application/json")])))
        end
    end.

End Mock.

(** ** Instrumented calls *)

(** The functions one call may run. *)
Inductive stage : Type :=
| BeforeFetch
| Transport
| Json
| OnResponse
| OnError.

(** How a recorded function ended; [NotOk] is the transport returning a
    response whose [ok] is false. *)
Inductive ending : Type :=
| Returned
| Threw
| NotOk.

(** What an instrumented call records, in the order of the calls. *)
Definition event : Type := (stage * ending)%type.

Definition stage_eqb (a b : stage) : bool :=
  match a, b with
  | BeforeFetch, BeforeFetch
  | Transport, Transport
  | Json, Json
  | OnResponse, OnResponse
  | OnError, OnError => true
  | _, _ => false
  end.

(** How many times the function [st] was run. *)
Definition runs (st : stage) (log : list event) : nat :=
  length (List.filter (fun ev => stage_eqb st (fst ev)) log).

Definition ending_of {A} (c : completion A) : ending :=
  match c with
  | inl _ => Threw
  | inr _ => Returned
  end.

(** How a call of [request] ends. *)
Inductive result_kind : Type :=
| Throws
| Resolves
| Rejects
| Hangs.

Definition kind {A} (c : completion (settled A)) : result_kind :=
  match c with
  | inl _ => Throws
  | inr (Resolved _) => Resolves
  | inr (Rejected _) => Rejects
  | inr Pending => Hangs
  end.

Section Instrumented.

Context {U : Type} {P : Platform}.

(** The instrumented world: the world [U] of the functions under
    observation, and the log, which they cannot reach. *)
Definition Logged : Type := (U * list event)%type.

(** Run [m] and record that [st] ran and how it ended. *)
Definition observe {A} (st : stage) (m : M U A) : M Logged A :=
  fun '(w, log) =>
    let (r, w') := m w in (r, (w', log ++ [(st, ending_of r)])).

(** Run [m] without a record. *)
Definition unobserved {A} (m : M U A) : M Logged A :=
  fun '(w, log) => let (r, w') := m w in (r, (w', log)).

Definition observe_response (r : @Response U) : @Response Logged :=
  mkResponse (ok r) (r_status r) (r_statusText r) (observe Json (json r)).

Definition observe_fetch (f : @Fetch U) : @Fetch Logged :=
  fun u request '(w, log) =>
    match f u request w with
    | (inl e, w') => (inl e, (w', log ++ [(Transport, Threw)]))
    | (inr r, w') =>
        (inr (observe_response r),
         (w', log ++ [(Transport, if ok r then Returned else NotOk)]))
    end.

(** Options whose three hooks are all set and all record their call. *)
Definition observed_options (target : string) (init : option RequestInit)
    (before : RequestContext -> M U RequestContext)
    (onResp : @ResponseContext Logged -> M U (@ResponseContext Logged))
    (onErr : error -> M U error)
    (gen : option (M U RPCId)) : @RPCFetchOptions Logged :=
  mkRPCFetchOptions target
    (Some (mkHooks
             (Some (fun c => observe BeforeFetch (before c)))
             (Some (fun c => observe OnResponse (onResp c)))
             (Some (fun e => observe OnError (onErr e)))
             (match gen with
              | Some g => Some (unobserved g)
              | None => None
              end)))
    init.

(** The log of one call, started with an empty log. *)
Definition trace {A} (m : M Logged A) (w : U) : list event :=
  snd (snd (m (w, []))).

(** The log of one call of [request] and the way the call ends. *)
Definition run {A} (m : M Logged (settled A)) (w : U)
  : list event * result_kind :=
  (trace m w, kind (fst (m (w, [])))).

End Instrumented.

(** What one [request] can do: the functions it runs, in order, with the
    way each ends, and the way the call ends. *)
Definition call_runs : list (list event * result_kind) :=
  let sent := [(BeforeFetch, Returned); (Transport, Returned)] in
  [ ([], Throws);
    ([(BeforeFetch, Threw)], Throws);
    ([(BeforeFetch, Returned); (Transport, NotOk)], Rejects);
    ([(BeforeFetch, Returned); (Transport, Threw); (OnError, Returned)],
     Rejects);
    ([(BeforeFetch, Returned); (Transport, Threw); (OnError, Threw)], Hangs);
    (sent ++ [(Json, Threw); (OnError, Returned)], Rejects);
    (sent ++ [(Json, Threw); (OnError, Threw)], Hangs);
    (sent ++ [(Json, Returned); (OnError, Returned)], Rejects);
    (sent ++ [(Json, Returned); (OnError, Threw)], Hangs);
    (sent ++ [(Json, Returned); (OnResponse, Returned)], Resolves);
    (sent ++ [(Json, Returned); (OnResponse, Threw); (OnError, Returned)],
     Rejects);
    (sent ++ [(Json, Returned); (OnResponse, Threw); (OnError, Threw)],
     Hangs) ].

(** ** Fixtures *)

Module Fixtures.

(** A stand-in platform for the closed examples: numbers print as the
    decimal digits of their integral part (the examples print integers
    only), a URL is valid when it starts with [http], and the one raw
    string that is read as JSON is the text of a JSON string, which starts
    with a quote: read as a response it has none of the fields, and its
    [jsonrpc], which nothing reads, is left empty. *)
Definition platform : Platform := {|
  Number_toString n := NilZero.string_of_int (Z.to_int (Qfloor n));
  URL_new s :=
    if String.prefix "http" s then inr (mkURL s)
    else inl (ETypeError "Invalid URL");
  JSON_parse_request _ := inl (ESyntaxError "Unexpected token");
  JSON_parse_response s :=
    match s with
    | String c _ =>
        if Ascii.eqb c (ascii_of_nat 34)
        then inr (mkRPCResponse EmptyString VUndefined None None)
        else inl (ESyntaxError "Unexpected token")
    | EmptyString => inl (ESyntaxError "Unexpected end of JSON input")
    end;
|}.

Definition endpoint : string := "http://localhost/rpc".

(** Options with no hooks. *)
Definition plain {W} : @RPCFetchOptions W :=
  mkRPCFetchOptions endpoint None None.

(** [{x: 1}] *)
Definition x1 : value := VObj [("x", VNum (num_of_Z 1))].

(** A transport that answers with the given status line and body. *)
Definition answer {W} (good : bool) (st : Z) (stText : string)
    (body : M W RPCResponse) : @Fetch W :=
  fun _ _ => ret (mkResponse good (num_of_Z st) stText body).

Definition error_500 {W} : @Response W :=
  mkResponse false (num_of_Z 500) "Internal Server Error"
    (ret (mkRPCResponse "2.0" VNull None (Some IdNull))).

Definition server_error {W} : @Fetch W := fun _ _ => ret error_500.

Definition success {W} : @Fetch W :=
  answer true 200 "OK" (ret (mkRPCResponse "2.0" x1 None (Some IdNull))).

(** A handler table with the one method [echo]. *)
Definition echo_actions {W} : gmap string (@MockRPCAction W) :=
  {[ "echo" := fun _ _ => ret (inl (createMockRPCResponse x1)) ]}.

Definition boom : error := EThrown (VStr "boom").

(** [-32600.5] *)
Definition fractional_code : number := (-65201 # 2)%Q.

(** A body whose error field has a code that is not an integer. *)
Definition fractional_error {W} : @Fetch W :=
  answer true 200 "OK"
    (ret (mkRPCResponse "2.0" VUndefined
            (Some (mkRPCError "Error" fractional_code EmptyString VUndefined))
            (Some IdNull))).

(** Instrumented options whose hooks do nothing else. *)
Definition quiet : @RPCFetchOptions (@Logged unit) :=
  observed_options endpoint None (fun c => ret c) (fun c => ret c)
    (fun e => ret e) None.

(** Instrumented options whose on-response hook throws. *)
Definition failing_onResponse : @RPCFetchOptions (@Logged unit) :=
  observed_options endpoint None (fun c => ret c) (fun _ => throw boom)
    (fun e => ret e) None.

(** Instrumented options whose before-send hook throws. *)
Definition failing_beforeFetch : @RPCFetchOptions (@Logged unit) :=
  observed_options endpoint None (fun _ => throw boom) (fun c => ret c)
    (fun e => ret e) None.

(** A request for [echo] with the given id, and the options that carry it
    to the transport. *)
Definition echo_request (i : option RPCId) : RPCRequest :=
  mkRPCRequest "2.0" "echo" x1 i.

Definition echo_init (i : option RPCId) : RequestInit :=
  <[ "body" := IString (JSON (echo_request i)) ]> defaultRequestInit.

(** A transport that throws. *)
Definition broken {W} : @Fetch W := fun _ _ => throw boom.

(** What [prepare] hands to the transport under [plain], for a call
    without arguments. *)
Definition plain_context (method : string) : RequestContext :=
  mkRequestContext (mkURL endpoint)
    (<[ "body" := IString (JSON (mkRPCRequest "2.0" method VUndefined
                                   (Some IdNull))) ]>
       defaultRequestInit).

(** Options whose on-error hook throws the error again. *)
Definition rethrowing {W} : @RPCFetchOptions W :=
  mkRPCFetchOptions endpoint
    (Some (mkHooks None None (Some (fun e => throw e)) None)) None.

(** Options with a URL that has no scheme. *)
Definition relative {W} : @RPCFetchOptions W :=
  mkRPCFetchOptions "/rpc" None None.

(** Options whose transport options set a body and a method. *)
Definition overriding {W} : @RPCFetchOptions W :=
  mkRPCFetchOptions endpoint None
    (Some {[ "body" := IString (Raw "mine"); "method" := IString (Raw "PUT") ]}).

(** The response of [success]. *)
Definition reply_x1 {W} : @Response W :=
  mkResponse true (num_of_Z 200) "OK"
    (ret (mkRPCResponse "2.0" x1 None (Some IdNull))).

(** A body with an error field that has a message. *)
Definition denied : RPCResponse :=
  mkRPCResponse "2.0" VUndefined
    (Some (mkRPCError "Error" (num_of_Z 403) "denied" VNull)) (Some IdNull).

Definition reply_denied {W} : @Response W :=
  mkResponse true (num_of_Z 200) "OK" (ret denied).

Definition refusing {W} : @Fetch W := fun _ _ => ret reply_denied.

(** Handlers that return an error response, return an HttpError, and
    throw. *)
Definition invalid_params : RPCResponse :=
  mkRPCResponse "2.0" VUndefined
    (Some (mkRPCError "RPCError" (num_of_Z (-32602)) "invalid params"
             VUndefined))
    (Some IdNull).

Definition unavailable : HttpError :=
  HttpError_new (@Number_toString platform) (num_of_Z 503)
    "Service Unavailable".

Definition test_actions {W} : gmap string (@MockRPCAction W) :=
  {[ "bad" := fun _ _ => ret (inl invalid_params);
     "down" := fun _ _ => ret (inr unavailable);
     "crash" := fun _ _ => throw boom ]}.

(** What the handlers of a call without arguments under [plain] get. *)
Definition plain_init (method : string) : RequestInit :=
  <[ "body" := IString (JSON (mkRPCRequest "2.0" method VUndefined
                                (Some IdNull))) ]>
    defaultRequestInit.

(** [request] and the mock transport on the stand-in platform. *)
Definition call {W} := @request W platform.
Definition mock {W} := @createMockFetch W platform.

End Fixtures.

(** ** Vocabulary of the statements *)

Section Failures.

Context {W : Type} {P : Platform}.

(** A failure inside the [try] block of one call that starts in world [w]:
    the transport throws or its promise rejects, the body of an ok response
    fails to parse, or the on-response hook throws. The error and the world
    it leaves are the indices. *)
Inductive thrown_in_try (o : RPCFetchOptions) (fetch_ : Fetch)
    (u : URL) (request : RequestInit) (w : W) : error -> W -> Prop :=
| transport_throws e w1 :
    fetch_ u request w = (inl e, w1) ->
    thrown_in_try o fetch_ u request w e w1
| body_fails r e w1 w2 :
    fetch_ u request w = (inr r, w1) ->
    ok r = true ->
    json r w1 = (inl e, w2) ->
    thrown_in_try o fetch_ u request w e w2
| onResponse_throws r rpc e w1 w2 w3 :
    fetch_ u request w = (inr r, w1) ->
    ok r = true ->
    json r w1 = (inr rpc, w2) ->
    res_error rpc = None ->
    hook o onResponse (mkResponseContext rpc r (res_result rpc)) w2
    = (inl e, w3) ->
    thrown_in_try o fetch_ u request w e w3.

End Failures.



(** Once the transport has been called, exactly one of the on-response and
    on-error hooks is called. *)
Definition one_hook_after_transport (log : list event) : Prop :=
  runs Transport log = 1 -> runs OnResponse log + runs OnError log = 1.

(** The error of an unknown method, as the mock transport builds it. *)
Definition method_not_found : RPCError :=
  mkRPCError "RPCError" (num_of_Z (-32601)) "method not found" VUndefined.

(** The reply of the mock transport to a request with the given id for a
    method that has no handler. *)
Definition method_not_found_response (i : option RPCId) : RPCResponse :=
  mkRPCResponse "2.0" VUndefined (Some method_not_found) i.

(** The options of the success reply of the mock transport. *)
Definition init_OK : ResponseInit :=
  mkResponseInit (Some (num_of_Z 200)) (Some "OK")
    [("Content-Type", "application/json")].

(** The handler's response as the mock transport sends it for the request
    [rq]. *)
Definition stamped (rq : RPCRequest) (r : RPCResponse) : RPCResponse :=
  mkRPCResponse (res_jsonrpc r) (res_result r) (res_error r)
    (if truthy_id (req_id rq) then req_id rq else res_id r).

(** *** Induction on values *)

Section ValueInduction.

Variable P : value -> Prop.

Hypothesis atoms :
  forall v, (forall items, v <> VArr items) -> (forall props, v <> VObj props) ->
            P v.
Hypothesis arrays : forall items, List.Forall P items -> P (VArr items).
Hypothesis objects :
  forall props, List.Forall (fun kv => P (snd kv)) props -> P (VObj props).

(** Induction on a value, with the property at hand for the elements of an
    array and for the values of the properties of an object. *)
Fixpoint value_nested_ind (v : value) : P v :=
  match v with
  | VArr items =>
      arrays items
        ((fix all (l : list value) : List.Forall P l :=
            match l with
            | [] => @List.Forall_nil _ P
            | x :: rest =>
                @List.Forall_cons _ P x rest (value_nested_ind x) (all rest)
            end) items)
  | VObj props =>
      objects props
        ((fix all (l : list (string * value))
            : List.Forall (fun kv => P (snd kv)) l :=
            match l with
            | [] => @List.Forall_nil _ _
            | kv :: rest =>
                @List.Forall_cons _ _ kv rest (value_nested_ind (snd kv))
                  (all rest)
            end) props)
  | v' => atoms v' ltac:(discriminate) ltac:(discriminate)
  end.

End ValueInduction.

(** The TypeError of [JSON.stringify] on a BigInt. *)
Definition bigint_error : error :=
  ETypeError "Do not know how to serialize a BigInt".

(** ** Tactics *)

(** Names what a run added to the log and finds it in a list of runs. *)
Ltac found :=
  simpl; rewrite <- ?app_assoc; simpl; eexists; split;
  [ reflexivity | simpl; repeat (first [ left; reflexivity | right ]) ].

(** * Properties *)

(** ** The error model *)

Lemma num_le_Z (a b : Z) : num_le (num_of_Z a) (num_of_Z b) = (a <=? b)%Z.
Proof.
  unfold num_le, num_of_Z, Qle_bool, inject_Z; simpl.
  now rewrite !Z.mul_1_r.
Qed.

Lemma num_ge_Z (a b : Z) : num_ge (num_of_Z a) (num_of_Z b) = (b <=? a)%Z.
Proof. unfold num_ge. apply (num_le_Z b a). Qed.

Lemma num_eq_Z (a b : Z) : num_eq (num_of_Z a) (num_of_Z b) = (a =? b)%Z.
Proof.
  unfold num_eq, num_of_Z, Qeq_bool, inject_Z; simpl.
  now rewrite !Z.mul_1_r.
Qed.

(** The five reserved codes get the humanized name of their enum member. *)
Lemma RPCError_new_reserved (m : RPCErrorCode) (d : value) :
  RPCError_new (num_of_Z (RPCErrorCode_value m)) None d
  = inr (mkRPCError "RPCError" (num_of_Z (RPCErrorCode_value m))
           (humanize (RPCErrorCode_name m)) d).
Proof. destruct m; reflexivity. Qed.

Lemma humanize_names :
  map (fun m => humanize (RPCErrorCode_name m)) RPCErrorCode_members
  = ["parse error"; "invalid request"; "method not found"; "invalid params";
     "internal error"].
Proof. reflexivity. Qed.

(** An integer code that is not reserved gets the placeholder. *)
Lemma RPCError_new_integer_other (z : Z) (d : value) :
  ~ In z (map RPCErrorCode_value RPCErrorCode_members) ->
  RPCError_new (num_of_Z z) None d
  = inr (mkRPCError "RPCError" (num_of_Z z) "Unknown error" d).
Proof.
  intros Hz. unfold RPCError_new.
  rewrite num_le_Z, num_ge_Z, num_eq_Z.
  destruct (((z <=? -32600)%Z && (-32603 <=? z)%Z) || (z =? -32700)%Z) eqn:G;
    [ | reflexivity ].
  exfalso. apply Hz. simpl.
  apply orb_true_iff in G. destruct G as [G | G].
  - apply andb_true_iff in G. destruct G as [G1 G2].
    apply Z.leb_le in G1, G2.
    assert (z = -32600 \/ z = -32601 \/ z = -32602 \/ z = -32603)%Z by lia.
    intuition.
  - apply Z.eqb_eq in G. now left.
Qed.

(** An explicit, non-empty message is kept, whatever the code. *)
Lemma RPCError_new_message (c : number) (a : ascii) (m : string) (d : value) :
  RPCError_new c (Some (String a m)) d
  = inr (mkRPCError "RPCError" c (String a m) d).
Proof. unfold RPCError_new. simpl. now rewrite andb_false_r. Qed.

(** Strictly between two neighbouring reserved codes there is no enum
    member: without a message the constructor throws. *)
Lemma RPCError_new_between (c : number) (d : value) :
  (num_of_Z (-32601) < c)%Q -> (c < num_of_Z (-32600))%Q ->
  exists msg, RPCError_new c None d = inl (ETypeError msg).
Proof.
  intros Hlo Hhi. unfold RPCError_new.
  assert (L : num_le c (num_of_Z (-32600)) = true).
  { apply Qle_bool_iff. now apply Qlt_le_weak. }
  assert (G : num_ge c (num_of_Z (-32603)) = true).
  { apply Qle_bool_iff. apply Qlt_le_weak.
    eapply Qlt_trans; [ | exact Hlo ]. reflexivity. }
  rewrite L, G. simpl.
  assert (N : forall z : Z, (z <= -32601 \/ -32600 <= z)%Z ->
                            num_eq c (num_of_Z z) = false).
  { intros z Hz. apply not_true_is_false. intros E.
    apply Qeq_bool_iff in E.
    destruct Hz as [Hz | Hz].
    - apply (Qlt_irrefl c). rewrite E at 1.
      eapply Qle_lt_trans; [ | exact Hlo ].
      unfold num_of_Z. rewrite <- Zle_Qle. exact Hz.
    - apply (Qlt_irrefl c). rewrite E at 2.
      eapply Qlt_le_trans; [ exact Hhi | ].
      unfold num_of_Z. rewrite <- Zle_Qle. exact Hz. }
  unfold RPCErrorCode_reverse. simpl.
  rewrite !N by lia. eexists. reflexivity.
Qed.

(** C5. [new RPCError(-32600.5)]: the code is not one of the five reserved
    codes and no message is given, so the message should be the
    placeholder; the guard of the constructor takes the code for a reserved
    one, finds no enum member for it, and the constructor throws a
    TypeError. *)
Theorem RPCError_new_fractional_code :
  RPCErrorCode_reverse Fixtures.fractional_code = None /\
  RPCError_new Fixtures.fractional_code None VUndefined
  = inl (ETypeError "Cannot read properties of undefined (reading 'replace')").
Proof. split; reflexivity. Qed.

(** ** The envelope codec *)




(** A single array argument stays wrapped. *)
Lemma extractParams_array (items : list value) :
  extractParams [VArr items] = VArr [VArr items].
Proof. reflexivity. Qed.

(** C10. [typeof null] is [object] and [null] is not an array: a single
    [null] argument is unwrapped, and the envelope is serialised with
    [params] equal to [null]. *)
Theorem extractParams_null :
  typeof VNull = "object" /\
  Array_isArray VNull = false /\
  extractParams [VNull] = VNull /\
  extractParams [VNull] <> VArr [VNull] /\
  forall method i,
    JSON_stringify_request (mkRPCRequest "2.0" method (extractParams [VNull]) i)
    = inr (JSON (mkRPCRequest "2.0" method VNull i)).
Proof. repeat split; try reflexivity. discriminate. Qed.

(** ** The request pipeline *)

Section PipelineFacts.

Context {W : Type} {P : Platform}.

Implicit Types (o : @RPCFetchOptions W) (w : W).

Lemma request_prepared o fetch_ method params w ctx w1 :
  prepare o method params w = (inr ctx, w1) ->
  request o fetch_ method params w
  = (inr (fst (executor o fetch_ (ctx_url ctx) (ctx_request ctx) w1)),
     snd (executor o fetch_ (ctx_url ctx) (ctx_request ctx) w1)).
Proof.
  intros Hp. unfold request. rewrite Hp.
  now destruct (executor o fetch_ (ctx_url ctx) (ctx_request ctx) w1).
Qed.

(** A throw before the promise exists leaves [request] as a throw. *)
Lemma request_throws o fetch_ method params w e w1 :
  prepare o method params w = (inl e, w1) ->
  request o fetch_ method params w = (inl e, w1).
Proof. intros Hp. unfold request. now rewrite Hp. Qed.

(** What the [catch] block does with a throw of the [try] block. *)
Lemma executor_caught o fetch_ u init w e w1 :
  attempt o fetch_ u init w = (inl e, w1) ->
  executor o fetch_ u init w
  = match hook o onError e w1 with
    | (inr e', w2) => (Rejected e', w2)
    | (inl _, w2) => (Pending, w2)
    end.
Proof.
  intros Ha. unfold executor, try_catch. rewrite Ha.
  unfold recover, bind, ret.
  now destruct (hook o onError e w1) as [[t | e'] w2].
Qed.

(** C2. When the transport returns an outcome that is not ok, the call
    rejects with the HttpError of its status and status text, in the world
    the transport left: [json] is not run, whatever it would return or
    do. *)
Theorem request_not_ok o fetch_ method params w ctx w1 r w2 :
  prepare o method params w = (inr ctx, w1) ->
  fetch_ (ctx_url ctx) (ctx_request ctx) w1 = (inr r, w2) ->
  ok r = false ->
  request o fetch_ method params w
  = (inr (Rejected
            (EHttp (HttpError_new Number_toString (r_status r)
                      (r_statusText r)))), w2) /\
  status (HttpError_new Number_toString (r_status r) (r_statusText r))
  = r_status r /\
  statusText (HttpError_new Number_toString (r_status r) (r_statusText r))
  = r_statusText r.
Proof.
  intros Hp Hf Hok. split; [ | split; reflexivity ].
  rewrite (request_prepared _ _ _ _ _ _ _ Hp).
  unfold executor, try_catch, attempt, bind. rewrite Hf, Hok. reflexivity.
Qed.

(** A populated error field: the error that the constructor builds from it
    is thrown, and the on-response hook is not called. *)
Lemma attempt_error_field o fetch_ u init w r w1 rpc w2 e :
  fetch_ u init w = (inr r, w1) ->
  ok r = true ->
  json r w1 = (inr rpc, w2) ->
  res_error rpc = Some e ->
  attempt o fetch_ u init w
  = (match RPCError_new (code e) (Some (message e)) (data e) with
     | inl t => inl t
     | inr err => inl (ERPC err)
     end, w2).
Proof.
  intros Hf Hok Hj He. unfold attempt, bind, lift, throw.
  rewrite Hf, Hok. simpl. rewrite Hj, He.
  now destruct (RPCError_new (code e) (Some (message e)) (data e)).
Qed.

(** When the constructor builds [err] and the on-error hook returns [e'],
    the call rejects with [e']. *)
Lemma request_error_field o fetch_ method params w ctx w1 r w2 rpc w3 e err e' w4 :
  prepare o method params w = (inr ctx, w1) ->
  fetch_ (ctx_url ctx) (ctx_request ctx) w1 = (inr r, w2) ->
  ok r = true ->
  json r w2 = (inr rpc, w3) ->
  res_error rpc = Some e ->
  RPCError_new (code e) (Some (message e)) (data e) = inr err ->
  hook o onError (ERPC err) w3 = (inr e', w4) ->
  request o fetch_ method params w = (inr (Rejected e'), w4).
Proof.
  intros Hp Hf Hok Hj He Hn Hh.
  rewrite (request_prepared _ _ _ _ _ _ _ Hp).
  pose proof (attempt_error_field o _ _ _ _ _ _ _ _ _ Hf Hok Hj He) as Ha.
  rewrite Hn in Ha. rewrite (executor_caught _ _ _ _ _ _ _ Ha), Hh.
  reflexivity.
Qed.

(** Each failure of [thrown_in_try] is a throw of the [try] block. *)
Lemma thrown_in_try_attempt o fetch_ u init w e w1 :
  thrown_in_try o fetch_ u init w e w1 ->
  attempt o fetch_ u init w = (inl e, w1).
Proof.
  intros [ e0 w0 Hf
         | r e0 w0 w0' Hf Hok Hj
         | r rpc e0 w0 w0' w0'' Hf Hok Hj He Hh ];
    unfold attempt, bind; rewrite Hf; [ reflexivity | | ];
    rewrite Hok; simpl; rewrite Hj; [ reflexivity | ].
  rewrite He, Hh. reflexivity.
Qed.

(** C9, amended. When the transport throws, the body fails to parse or the
    on-response hook throws, the thrown value goes to the on-error hook
    and the call rejects with what the hook returns. *)
Theorem request_failure_through_onError
    o fetch_ method params w ctx w1 e w2 e' w3 :
  prepare o method params w = (inr ctx, w1) ->
  thrown_in_try o fetch_ (ctx_url ctx) (ctx_request ctx) w1 e w2 ->
  hook o onError e w2 = (inr e', w3) ->
  request o fetch_ method params w = (inr (Rejected e'), w3).
Proof.
  intros Hp Ht Hh.
  rewrite (request_prepared _ _ _ _ _ _ _ Hp).
  rewrite (executor_caught _ _ _ _ _ _ _ (thrown_in_try_attempt _ _ _ _ _ _ _ Ht)).
  rewrite Hh. reflexivity.
Qed.

(** A throw of the before-send hook is a throw of [request]: there is no
    promise, and the transport and the on-error hook are not called. *)
Lemma request_beforeFetch_throws o fetch_ method params w i w1 body u e w2 :
  generateId o w = (inr i, w1) ->
  JSON_stringify_request
    (mkRPCRequest "2.0" method (extractParams params) (Some i)) = inr body ->
  URL_new (url o) = inr u ->
  hook o beforeFetch
    (mkRequestContext u (<[ "body" := IString body ]> (generateRequestInit o))) w1
  = (inl e, w2) ->
  request o fetch_ method params w = (inl e, w2).
Proof.
  intros Hi Hb Hu Hh. apply request_throws.
  unfold prepare, bind, lift. rewrite Hi, Hb, Hu. exact Hh.
Qed.

End PipelineFacts.

(** C2 at a transport that answers [500 Internal Server Error]. *)
Lemma request_not_ok_witness :
  Fixtures.call (W:=unit) Fixtures.plain Fixtures.server_error "m" [] tt
  = (inr (Rejected
            (EHttp (mkHttpError "HttpError" (num_of_Z 500)
                      "Internal Server Error" "500 Internal Server Error"))),
     tt).
Proof.
  refine (proj1 (request_not_ok (P:=Fixtures.platform) Fixtures.plain
                   Fixtures.server_error "m" [] tt (Fixtures.plain_context "m")
                   tt Fixtures.error_500 tt _ _ _)); reflexivity.
Defined.

(** C3. A body with a populated error field whose code is [-32600.5] and
    whose message is empty: the constructor throws instead of building the
    RPCError, and the call rejects with that TypeError. *)
Theorem request_fractional_error_code :
  Fixtures.call (W:=unit) Fixtures.plain Fixtures.fractional_error "m" [] tt
  = (inr (Rejected
            (ETypeError
               "Cannot read properties of undefined (reading 'replace')")),
     tt).
Proof. reflexivity. Qed.

(** C9 at a transport that throws, without hooks. *)
Lemma request_failure_through_onError_witness :
  Fixtures.call (W:=unit) Fixtures.plain Fixtures.broken "m" [] tt
  = (inr (Rejected Fixtures.boom), tt).
Proof.
  refine (request_failure_through_onError (P:=Fixtures.platform)
            Fixtures.plain Fixtures.broken "m" [] tt
            (Fixtures.plain_context "m") tt Fixtures.boom tt Fixtures.boom tt
            _ _ _).
  - reflexivity.
  - apply transport_throws. reflexivity.
  - reflexivity.
Defined.

(** C9 as stated fails for the before-send hook: its throw leaves
    [request] as a throw, no promise is rejected and the on-error hook is
    not called. *)
Lemma request_beforeFetch_escapes :
  Fixtures.call Fixtures.failing_beforeFetch
    (observe_fetch Fixtures.success) "m" [] (tt, [])
  = (inl Fixtures.boom, (tt, [(BeforeFetch, Threw)])) /\
  (forall e' w',
     Fixtures.call Fixtures.failing_beforeFetch
       (observe_fetch Fixtures.success) "m" [] (tt, [])
     <> (inr (Rejected e'), w')) /\
  runs OnError
    (trace (Fixtures.call Fixtures.failing_beforeFetch
              (observe_fetch Fixtures.success) "m" []) tt) = 0.
Proof.
  split; [ reflexivity | split; [ | reflexivity ] ].
  intros e' w'. discriminate.
Qed.

(** ** The order of the calls *)

Section TraceFacts.

Context {U : Type} {P : Platform}.

Variables (target : string) (init : option RequestInit)
  (before : RequestContext -> M U RequestContext)
  (onResp : @ResponseContext (@Logged U) -> M U (@ResponseContext (@Logged U)))
  (onErr : error -> M U error)
  (gen : option (M U RPCId))
  (f : @Fetch U).

Local Abbreviation o := (observed_options target init before onResp onErr gen).

(** Before the promise: nothing is recorded when [request] throws on its
    own, and the before-send hook alone is recorded once it is called. *)
Lemma prepare_log method params (w : U) :
  match prepare o method params (w, []) with
  | (inl _, (_, log)) => log = [] \/ log = [(BeforeFetch, Threw)]
  | (inr _, (_, log)) => log = [(BeforeFetch, Returned)]
  end.
Proof.
  unfold prepare, bind, lift, generateId, hook, observed_options.
  cbn [options idGenerator beforeFetch url].
  destruct gen as [g | ].
  - unfold unobserved at 1.
    destruct (g w) as [[t | i] w1]; [ now left | ].
    destruct (JSON_stringify_request _) as [t | body]; [ now left | ].
    destruct (URL_new target) as [t | u]; [ now left | ].
    unfold observe.
    destruct (before _ w1) as [[t | ctx] w2]; [ now right | reflexivity ].
  - unfold ret.
    destruct (JSON_stringify_request _) as [t | body]; [ now left | ].
    destruct (URL_new target) as [t | u]; [ now left | ].
    unfold observe.
    destruct (before _ w) as [[t | ctx] w2]; [ now right | reflexivity ].
Qed.

(** The promise: what the executor adds to the log, and how it settles. *)
Lemma executor_log u request (w : U) (log : list event) :
  exists added,
    snd (snd (executor o (observe_fetch f) u request (w, log))) = log ++ added /\
    In (added,
        kind (inr (fst (executor o (observe_fetch f) u request (w, log)))))
       [ ([(Transport, NotOk)], Rejects);
         ([(Transport, Threw); (OnError, Returned)], Rejects);
         ([(Transport, Threw); (OnError, Threw)], Hangs);
         ([(Transport, Returned); (Json, Threw); (OnError, Returned)], Rejects);
         ([(Transport, Returned); (Json, Threw); (OnError, Threw)], Hangs);
         ([(Transport, Returned); (Json, Returned); (OnError, Returned)],
          Rejects);
         ([(Transport, Returned); (Json, Returned); (OnError, Threw)], Hangs);
         ([(Transport, Returned); (Json, Returned); (OnResponse, Returned)],
          Resolves);
         ([(Transport, Returned); (Json, Returned); (OnResponse, Threw);
           (OnError, Returned)], Rejects);
         ([(Transport, Returned); (Json, Returned); (OnResponse, Threw);
           (OnError, Threw)], Hangs) ].
Proof.
  unfold executor, try_catch, attempt, recover, bind, lift, ret, throw, hook,
    observed_options.
  cbn [options onResponse onError].
  unfold observe_fetch, observe_response, observe.
  destruct (f u request w) as [[t | r] w1].
  - (* the transport throws *)
    destruct (onErr t w1) as [[t' | e'] w2]; found.
  - cbn [ok json]. destruct (ok r) eqn:Hok; cbn [negb].
    + (* ok: the body is read *)
      destruct (json r w1) as [[t | rpc] w2].
      * destruct (onErr t w2) as [[t' | e'] w3]; found.
      * destruct (res_error rpc) as [e | ].
        -- destruct (RPCError_new (code e) (Some (message e)) (data e))
             as [t | err];
             [ destruct (onErr t w2) as [[t' | e'] w3]
             | destruct (onErr (ERPC err) w2) as [[t' | e'] w3] ]; found.
        -- destruct (onResp _ w2) as [[t | ctx] w3].
           ++ destruct (onErr t w3) as [[t' | e'] w4]; found.
           ++ found.
    + (* not ok: rejected at once *)
      found.
Qed.

(** C4, amended. What one [request] with instrumented hooks and an
    instrumented transport runs is one of the sequences of [call_runs]:
    the before-send hook runs before the transport, every hook runs at
    most once, and after the transport has returned either on-response or
    on-error runs, except that neither runs after an outcome that is not
    ok, and that on-error runs after on-response when on-response
    throws. *)
Theorem request_trace method params (w : U) :
  In (run (request o (observe_fetch f) method params) w) call_runs.
Proof.
  unfold run, trace, request.
  pose proof (prepare_log method params w) as Hp.
  destruct (prepare o method params (w, [])) as [[t | ctx] [w1 log]].
  - simpl. destruct Hp as [-> | ->]; simpl; auto.
  - subst log.
    destruct (executor_log (ctx_url ctx) (ctx_request ctx) w1
                [(BeforeFetch, Returned)]) as (added & Hlog & Hin).
    revert Hlog Hin.
    match goal with
    | |- context [executor ?a ?b ?c ?d ?e] =>
        destruct (executor a b c d e) as [s [w2 log2]]
    end.
    cbn [fst snd]. intros Hlog Hin. subst log2.
    unfold call_runs. simpl in Hin |- *.
    repeat (destruct Hin as [Hin | Hin];
            [ injection Hin as <- <-; simpl;
              repeat (first [ left; reflexivity | right ])
            | ]).
    contradiction.
Qed.

End TraceFacts.

(** What every sequence of [call_runs] has. No function runs twice; the
    transport runs only after the before-send hook returned; when neither
    hook runs after the transport, the outcome was not ok; when both run,
    the on-response hook threw; and on-error never comes before
    on-response. *)
Lemma call_runs_shape :
  Forall (fun r : list event * result_kind =>
            let log := fst r in
            (forall st, runs st log <= 1) /\
            (runs Transport log = 1 ->
             hd_error log = Some (BeforeFetch, Returned)) /\
            (runs Transport log = 1 ->
             runs OnResponse log + runs OnError log = 0 ->
             In (Transport, NotOk) log) /\
            (runs OnResponse log + runs OnError log = 2 ->
             exists before after,
               log = before ++ (OnResponse, Threw) :: after /\
               runs OnError after = 1))
         call_runs.
Proof.
  unfold call_runs.
  repeat (apply List.Forall_cons;
          [ cbn [fst app]; split; [ | split; [ | split ] ];
            [ intros st; destruct st; unfold runs; simpl; lia
            | unfold runs; simpl;
              first [ discriminate | reflexivity | intros _; reflexivity ]
            | unfold runs; simpl;
              first [ discriminate
                    | intros _; discriminate
                    | intros _ _; simpl; tauto ]
            | unfold runs; simpl;
              first [ discriminate
                    | intros _;
                      exists [(BeforeFetch, Returned); (Transport, Returned);
                              (Json, Returned)];
                      eexists; split; reflexivity ] ]
          | ]).
  apply List.Forall_nil.
Qed.

(** C4 as stated fails twice: after an outcome that is not ok neither hook
    runs, and when the on-response hook throws both run. *)
Lemma request_trace_not_one_hook :
  trace (Fixtures.call Fixtures.quiet
           (observe_fetch Fixtures.server_error) "m" []) tt
  = [(BeforeFetch, Returned); (Transport, NotOk)] /\
  ~ one_hook_after_transport
      (trace (Fixtures.call Fixtures.quiet
                (observe_fetch Fixtures.server_error) "m" []) tt) /\
  trace (Fixtures.call Fixtures.failing_onResponse
           (observe_fetch Fixtures.success) "m" []) tt
  = [(BeforeFetch, Returned); (Transport, Returned); (Json, Returned);
     (OnResponse, Threw); (OnError, Returned)] /\
  ~ one_hook_after_transport
      (trace (Fixtures.call Fixtures.failing_onResponse
                (observe_fetch Fixtures.success) "m" []) tt).
Proof.
  repeat split; try reflexivity; intros Hc.
  - assert (E : 0 = 1) by (apply Hc; reflexivity). discriminate E.
  - assert (E : 2 = 1) by (apply Hc; reflexivity). discriminate E.
Qed.

(** ** The mock transport *)

Section MockFacts.

Context {W : Type} {P : Platform}.

Implicit Types (o : @RPCFetchOptions W) (w : W)
  (actions : gmap string (@MockRPCAction W)) (action : @MockRPCAction W).

Lemma Response_new_default (body : text RPCResponse) :
  Response_new (W:=W) body None
  = inr (mkResponse true (num_of_Z 200) EmptyString (body_json body)).
Proof. reflexivity. Qed.

Lemma Response_new_OK (body : text RPCResponse) :
  Response_new (W:=W) body (Some init_OK)
  = inr (mkResponse true (num_of_Z 200) "OK" (body_json body)).
Proof. reflexivity. Qed.

(** The body that [request] wrote is the request the mock reads. *)
Lemma parse_body_insert (init : RequestInit) (rq : RPCRequest) :
  parse_body (<[ "body" := IString (JSON rq) ]> init) = inr rq.
Proof. unfold parse_body. now rewrite lookup_insert_eq. Qed.

(** A hook that is not set is the identity. *)
Lemma hook_unset {A} o (f : @Hooks W -> option (A -> M W A)) :
  (forall h, options o = Some h -> f h = None) -> hook o f = ret.
Proof.
  intros Hf. unfold hook. destruct (options o) as [h | ]; [ | reflexivity ].
  now rewrite (Hf h eq_refl).
Qed.

(** Without a before-send hook the transport gets the serialised
    envelope. *)
Lemma prepare_no_hook o method params w i w1 p u :
  (forall h, options o = Some h -> beforeFetch h = None) ->
  generateId o w = (inr i, w1) ->
  JSON_field (extractParams params) = inr p ->
  URL_new (url o) = inr u ->
  prepare o method params w
  = (inr (mkRequestContext u
            (<[ "body" := IString (JSON (mkRPCRequest "2.0" method p (Some i))) ]>
               (generateRequestInit o))), w1).
Proof.
  intros Hb Hi Hp Hu. unfold prepare, bind, lift.
  rewrite Hi. unfold JSON_stringify_request. cbn [req_params].
  rewrite Hp, Hu, (hook_unset _ _ Hb). reflexivity.
Qed.

(** The wire keeps the id of a response. *)
Lemma JSON_stringify_response_id (r : RPCResponse) (body : text RPCResponse) :
  JSON_stringify_response r = inr body ->
  exists sent, body = JSON sent /\ res_id sent = res_id r.
Proof.
  unfold JSON_stringify_response.
  destruct (JSON_field (res_result r)) as [t | res]; [ discriminate | ].
  destruct (res_error r) as [e | ].
  - destruct (JSON_stringify_error e) as [t | e']; [ discriminate | ].
    intros [= <-]. eexists. split; reflexivity.
  - intros [= <-]. eexists. split; reflexivity.
Qed.

(** The reply to a method that has no handler and is not the name of a
    member of [Object.prototype]. *)
Lemma mock_unregistered actions u init w rq :
  parse_body init = inr rq ->
  actions !! req_method rq = None ->
  Object_prototype (req_method rq) = None ->
  createMockFetch actions u init w
  = (inr (mkResponse true (num_of_Z 200) EmptyString
            (ret (method_not_found_response (req_id rq)))), w).
Proof.
  intros Hb Ha Hn. unfold createMockFetch, bind, lift. rewrite Hb.
  cbn beta iota. unfold MockRPCAction in *. rewrite Ha, Hn. reflexivity.
Qed.

(** X17. A call to a method that has no handler and whose name is not the
    name of a member of [Object.prototype]: the mock transport answers
    with status 200 and a body that holds the error -32601 and the id of
    the request it decoded; the pipeline throws that RPCError to its
    [catch] block, so the call ends as the on-error hook decides, and
    rejects with the RPCError itself when that hook is not set. No
    HttpError is built. *)
Theorem mock_method_not_found o actions method params w ctx w1 rq :
  prepare o method params w = (inr ctx, w1) ->
  parse_body (ctx_request ctx) = inr rq ->
  actions !! req_method rq = None ->
  Object_prototype (req_method rq) = None ->
  createMockFetch actions (ctx_url ctx) (ctx_request ctx) w1
  = (inr (mkResponse true (num_of_Z 200) EmptyString
            (ret (method_not_found_response (req_id rq)))), w1) /\
  code method_not_found = num_of_Z (RPCErrorCode_value MethodNotFound) /\
  request o (createMockFetch actions) method params w
  = match hook o onError (ERPC method_not_found) w1 with
    | (inr e', w2) => (inr (Rejected e'), w2)
    | (inl _, w2) => (inr Pending, w2)
    end /\
  ((forall h, options o = Some h -> onError h = None) ->
   request o (createMockFetch actions) method params w
   = (inr (Rejected (ERPC method_not_found)), w1)).
Proof.
  intros Hp Hb Ha Hn.
  pose proof (mock_unregistered actions (ctx_url ctx) _ w1 rq Hb Ha Hn) as Hm.
  assert (Hr : request o (createMockFetch actions) method params w
               = match hook o onError (ERPC method_not_found) w1 with
                 | (inr e', w2) => (inr (Rejected e'), w2)
                 | (inl _, w2) => (inr Pending, w2)
                 end).
  { rewrite (request_prepared _ _ _ _ _ _ _ Hp).
    rewrite (executor_caught _ _ _ _ _ (ERPC method_not_found) w1).
    - now destruct (hook o onError (ERPC method_not_found) w1) as [[t | e'] w2].
    - rewrite (attempt_error_field o _ _ _ _ _ _
                 (method_not_found_response (req_id rq)) w1 method_not_found
                 Hm eq_refl eq_refl eq_refl).
      reflexivity. }
  split; [ exact Hm | split; [ reflexivity | split; [ exact Hr | ] ] ].
  intros Hnone. rewrite Hr, (hook_unset _ _ Hnone). reflexivity.
Qed.

(** The reply when the handler returns a response. *)
Lemma mock_registered actions u init w rq action r w1 :
  parse_body init = inr rq ->
  actions !! req_method rq = Some action ->
  action rq init w = (inr (inl r), w1) ->
  createMockFetch actions u init w
  = (match JSON_stringify_response (stamped rq r) with
     | inl t => inl t
     | inr body => Response_new body (Some init_OK)
     end, w1).
Proof.
  intros Hb Ha Hr.
  unfold createMockFetch, bind, lift. rewrite Hb.
  cbn beta iota. unfold MockRPCAction in *. rewrite Ha, Hr.
  unfold stamped, init_OK.
  destruct (truthy_id (req_id rq)).
  - now destruct (JSON_stringify_response _).
  - destruct r as [j res e i]. cbn [res_jsonrpc res_result res_error res_id].
    now destruct (JSON_stringify_response _).
Qed.

(** C7. The response of a handler is sent with the id of the decoded
    request when that id is truthy, and as the handler built it when the
    id is falsy: [0], the empty string, [null] or no id. *)
Theorem mock_stamps_id actions u init w rq action r w1 :
  parse_body init = inr rq ->
  actions !! req_method rq = Some action ->
  action rq init w = (inr (inl r), w1) ->
  createMockFetch actions u init w
  = (match JSON_stringify_response (stamped rq r) with
     | inl t => inl t
     | inr body => Response_new body (Some init_OK)
     end, w1) /\
  (forall body, JSON_stringify_response (stamped rq r) = inr body ->
     exists sent, body = JSON sent /\
       res_id sent = if truthy_id (req_id rq) then req_id rq else res_id r) /\
  (truthy_id (req_id rq) = true -> res_id (stamped rq r) = req_id rq) /\
  (truthy_id (req_id rq) = false -> stamped rq r = r) /\
  truthy_id (Some (IdNum (num_of_Z 0))) = false /\
  truthy_id (Some (IdStr EmptyString)) = false /\
  truthy_id (Some IdNull) = false /\
  truthy_id None = false.
Proof.
  intros Hb Ha Hr.
  split; [ | split; [ | split; [ | split; [ | repeat split ] ] ] ].
  - exact (mock_registered actions u init w rq action r w1 Hb Ha Hr).
  - intros body Hs.
    destruct (JSON_stringify_response_id _ _ Hs) as (sent & -> & Hid).
    exists sent. split; [ reflexivity | exact Hid ].
  - intros Ht. unfold stamped. cbn [res_id]. now rewrite Ht.
  - intros Ht. unfold stamped. rewrite Ht. now destruct r.
Qed.

(** C8. The call [request("echo", {x: 1})] through a mock transport whose
    [echo] handler returns [createMockRPCResponse({x: 1})], with no
    before-send and no on-response hook: the promise resolves, and the
    data of the response context is [{x: 1}]. *)
Theorem echo_round_trip o actions action w i w1 u :
  (forall h, options o = Some h -> beforeFetch h = None) ->
  (forall h, options o = Some h -> onResponse h = None) ->
  generateId o w = (inr i, w1) ->
  URL_new (url o) = inr u ->
  actions !! "echo" = Some action ->
  (forall rq init w',
     action rq init w'
     = (inr (inl (createMockRPCResponse Fixtures.x1)), w')) ->
  exists ctx,
    request o (createMockFetch actions) "echo" [Fixtures.x1] w
    = (inr (Resolved ctx), w1) /\
    ctx_data ctx = Fixtures.x1 /\
    res_result (rpcResponse ctx) = Fixtures.x1.
Proof.
  intros Hb Hr Hi Hu Ha Hact.
  pose proof (prepare_no_hook o "echo" [Fixtures.x1] w i w1 Fixtures.x1 u
                Hb Hi eq_refl Hu) as Hp.
  rewrite (request_prepared _ _ _ _ _ _ _ Hp).
  cbn [ctx_url ctx_request].
  set (rq := mkRPCRequest "2.0" "echo" Fixtures.x1 (Some i)).
  set (init := <[ "body" := IString (JSON rq) ]> (generateRequestInit o)).
  pose proof (mock_registered actions u init w1 rq action
                (createMockRPCResponse Fixtures.x1) w1
                (parse_body_insert _ _) Ha (Hact _ _ _)) as Hm.
  assert (Hs : JSON_stringify_response
                 (stamped rq (createMockRPCResponse Fixtures.x1))
               = inr (JSON (stamped rq (createMockRPCResponse Fixtures.x1))))
    by reflexivity.
  rewrite Hs, Response_new_OK in Hm.
  unfold executor, try_catch, attempt, bind. rewrite Hm.
  cbn [ok negb json body_json]. unfold ret at 1.
  cbn [res_error stamped createMockRPCResponse].
  rewrite (hook_unset _ _ Hr). unfold ret.
  eexists. split; [ reflexivity | split; reflexivity ].
Qed.

End MockFacts.

(** X17 at the call [request("nope")] without hooks. *)
Lemma mock_method_not_found_witness :
  Fixtures.call (W:=unit) Fixtures.plain (Fixtures.mock Fixtures.echo_actions)
    "nope" [] tt
  = (inr (Rejected (ERPC method_not_found)), tt).
Proof.
  refine (proj2 (proj2 (proj2
            (mock_method_not_found (P:=Fixtures.platform) Fixtures.plain
               Fixtures.echo_actions "nope" [] tt (Fixtures.plain_context "nope")
               tt (mkRPCRequest "2.0" "nope" VUndefined (Some IdNull))
               _ _ _ _))) _).
  - reflexivity.
  - reflexivity.
  - reflexivity.
  - reflexivity.
  - intros h Hh. discriminate Hh.
Defined.

(** [request("toString")] resolves too: the member returns a string, which
    is sent as the body and has no error field. *)
Lemma mock_toString_resolves :
  exists ctx,
    Fixtures.call (W:=unit) Fixtures.plain
      (Fixtures.mock Fixtures.echo_actions) "toString" [] tt
    = (inr (Resolved ctx), tt) /\
    ctx_data ctx = VUndefined.
Proof. eexists. split; reflexivity. Qed.

(** The other members of [Object.prototype] throw when the mock calls
    them, or cannot be called: the call rejects, with a TypeError and not
    with the error -32601. *)
Lemma mock_hasOwnProperty_rejects :
  Fixtures.call (W:=unit) Fixtures.plain
    (Fixtures.mock Fixtures.echo_actions) "hasOwnProperty" [] tt
  = (inr (Rejected (ETypeError "Cannot convert undefined or null to object")),
     tt).
Proof. reflexivity. Qed.

(** C6. [request("constructor")] through a mock transport whose table is
    the object literal with the one handler [echo]: no handler is
    registered for the method, but [actions["constructor"]] is the
    function [Object] that every object literal inherits. The mock calls
    it as a handler, gets the request object back and sends it with
    status 200; it has no error field, so the call resolves, with no data,
    instead of being rejected with the error -32601. *)
Theorem mock_inherited_method_resolves :
  (Fixtures.echo_actions (W:=unit)) !! "constructor" = None /\
  Object_prototype "constructor" = Some ObjectFunction /\
  exists ctx,
    Fixtures.call (W:=unit) Fixtures.plain
      (Fixtures.mock Fixtures.echo_actions) "constructor" [] tt
    = (inr (Resolved ctx), tt) /\
    rpcResponse ctx = mkRPCResponse "2.0" VUndefined None (Some IdNull) /\
    ctx_data ctx = VUndefined.
Proof.
  split; [ reflexivity | split; [ reflexivity | ] ].
  eexists. split; [ reflexivity | split; reflexivity ].
Qed.

(** C7 at a request with the id 7: the handler's [null] id is replaced. *)
Lemma mock_stamps_id_witness :
  Fixtures.mock (W:=unit) Fixtures.echo_actions (mkURL Fixtures.endpoint)
    (Fixtures.echo_init (Some (IdNum (num_of_Z 7)))) tt
  = (inr (mkResponse true (num_of_Z 200) "OK"
            (ret (mkRPCResponse "2.0" Fixtures.x1 None
                    (Some (IdNum (num_of_Z 7)))))), tt).
Proof.
  refine (proj1
            (mock_stamps_id (P:=Fixtures.platform) Fixtures.echo_actions
               (mkURL Fixtures.endpoint)
               (Fixtures.echo_init (Some (IdNum (num_of_Z 7)))) tt
               (Fixtures.echo_request (Some (IdNum (num_of_Z 7))))
               (fun _ _ => ret (inl (createMockRPCResponse Fixtures.x1)))
               (createMockRPCResponse Fixtures.x1) tt _ _ _));
    reflexivity.
Defined.

(** With the id 0 the handler's id stays. *)
Lemma mock_keeps_id_zero :
  Fixtures.mock (W:=unit) Fixtures.echo_actions (mkURL Fixtures.endpoint)
    (Fixtures.echo_init (Some (IdNum (num_of_Z 0)))) tt
  = (inr (mkResponse true (num_of_Z 200) "OK"
            (ret (mkRPCResponse "2.0" Fixtures.x1 None (Some IdNull)))), tt).
Proof. reflexivity. Qed.

(** C8 without hooks. *)
Lemma echo_round_trip_witness :
  exists ctx,
    Fixtures.call (W:=unit) Fixtures.plain
      (Fixtures.mock Fixtures.echo_actions) "echo" [Fixtures.x1] tt
    = (inr (Resolved ctx), tt) /\
    ctx_data ctx = Fixtures.x1 /\
    res_result (rpcResponse ctx) = Fixtures.x1.
Proof.
  refine (echo_round_trip (P:=Fixtures.platform) Fixtures.plain
            Fixtures.echo_actions
            (fun _ _ => ret (inl (createMockRPCResponse Fixtures.x1)))
            tt IdNull tt (mkURL Fixtures.endpoint) _ _ _ _ _ _).
  - intros h Hh. discriminate Hh.
  - intros h Hh. discriminate Hh.
  - reflexivity.
  - reflexivity.
  - reflexivity.
  - intros rq init w'. reflexivity.
Defined.

(** * Further properties *)

(** ** The constructor of [RPCError] *)

(** X1. The constructor throws exactly when no usable message is given and
    the code lies in the range from -32603 to -32600 without being one of
    the enum's values. *)
Theorem RPCError_new_throws_iff (c : number) (msg : option string) (d : value) :
  (exists t, RPCError_new c msg d = inl t) <->
  truthy_message msg = false /\
  (num_of_Z (-32603) <= c)%Q /\ (c <= num_of_Z (-32600))%Q /\
  forall m, ~ (c == num_of_Z (RPCErrorCode_value m))%Q.
Proof.
  unfold RPCError_new, RPCErrorCode_reverse, num_le, num_ge, num_eq. simpl.
  destruct (Qeq_bool c (num_of_Z (-32700))) eqn:E0;
  destruct (Qeq_bool c (num_of_Z (-32600))) eqn:E1;
  destruct (Qeq_bool c (num_of_Z (-32601))) eqn:E2;
  destruct (Qeq_bool c (num_of_Z (-32602))) eqn:E3;
  destruct (Qeq_bool c (num_of_Z (-32603))) eqn:E4;
  destruct (Qle_bool c (num_of_Z (-32600))) eqn:L;
  destruct (Qle_bool (num_of_Z (-32603)) c) eqn:G;
  destruct (truthy_message msg) eqn:T; simpl;
  (split;
   [ intros [t Ht]; try discriminate Ht
   | intros (Hm & Hlo & Hhi & Hne); try discriminate Hm ]);
  try (exfalso; apply (Hne ParseError); now apply Qeq_bool_iff);
  try (exfalso; apply (Hne InvalidRequest); now apply Qeq_bool_iff);
  try (exfalso; apply (Hne MethodNotFound); now apply Qeq_bool_iff);
  try (exfalso; apply (Hne InvalidParams); now apply Qeq_bool_iff);
  try (exfalso; apply (Hne InternalError); now apply Qeq_bool_iff);
  try (apply Qle_bool_iff in Hhi; congruence);
  try (apply Qle_bool_iff in Hlo; congruence);
  try (eexists; reflexivity).
  all: repeat split;
    try reflexivity;
    try (now apply Qle_bool_iff);
    intros m Hm; apply Qeq_bool_iff in Hm; destruct m; simpl in Hm; congruence.
Qed.

(** X2. For each of the five reserved codes, a missing message and an
    empty message are both replaced by the humanized name of the code. *)
Theorem RPCError_new_reserved_falsy (m : RPCErrorCode) (msg : option string)
    (d : value) :
  truthy_message msg = false ->
  RPCError_new (num_of_Z (RPCErrorCode_value m)) msg d
  = inr (mkRPCError "RPCError" (num_of_Z (RPCErrorCode_value m))
           (humanize (RPCErrorCode_name m)) d).
Proof.
  intros Hm. unfold RPCError_new. rewrite Hm.
  destruct m; reflexivity.
Qed.

Lemma RPCError_new_reserved_falsy_witness :
  RPCError_new (num_of_Z (-32602)) (Some EmptyString) VNull
  = inr (mkRPCError "RPCError" (num_of_Z (-32602)) "invalid params" VNull).
Proof.
  apply (RPCError_new_reserved_falsy InvalidParams (Some EmptyString) VNull).
  reflexivity.
Defined.

(** X3. For an integer code that is not reserved the constructor never
    throws: the message is the one given, the empty string included, and
    the placeholder only when none is given. *)
Theorem RPCError_new_integer (z : Z) (msg : option string) (d : value) :
  ~ In z (map RPCErrorCode_value RPCErrorCode_members) ->
  RPCError_new (num_of_Z z) msg d
  = inr (mkRPCError "RPCError" (num_of_Z z)
           (match msg with Some m => m | None => "Unknown error" end) d).
Proof.
  intros Hz. unfold RPCError_new.
  rewrite num_le_Z, num_ge_Z, num_eq_Z.
  destruct (((z <=? -32600)%Z && (-32603 <=? z)%Z) || (z =? -32700)%Z) eqn:G;
    [ | reflexivity ].
  exfalso. apply Hz. simpl.
  apply orb_true_iff in G. destruct G as [G | G].
  - apply andb_true_iff in G. destruct G as [G1 G2].
    apply Z.leb_le in G1, G2.
    assert (z = -32600 \/ z = -32601 \/ z = -32602 \/ z = -32603)%Z by lia.
    intuition.
  - apply Z.eqb_eq in G. now left.
Qed.

Lemma RPCError_new_integer_witness :
  RPCError_new (num_of_Z 404) (Some EmptyString) VNull
  = inr (mkRPCError "RPCError" (num_of_Z 404) EmptyString VNull).
Proof.
  apply (RPCError_new_integer 404 (Some EmptyString) VNull).
  simpl. intuition discriminate.
Defined.

(** ** Serialising the envelope *)

(** [JSON.stringify] fails in one way only. *)
Lemma JSON_image_error (v : value) :
  forall e, JSON_image v = inl e -> e = bigint_error.
Proof.
  induction v as [ v Harr Hobj | items IH | props IH ] using value_nested_ind.
  - intros e. destruct v; simpl; try discriminate.
    + now intros [= <-].
    + now destruct (Harr items).
    + now destruct (Hobj props).
  - intros e. simpl.
    induction IH as [ | x rest Hx _ IHrest ]; [ discriminate | ].
    destruct (JSON_image x) as [e1 | o] eqn:Ex.
    + intros [= <-]. now apply Hx.
    + match goal with
      | |- context [match ?el rest with _ => _ end] =>
          destruct (el rest) as [e2 | rest'] eqn:Er
      end.
      * intros He. apply IHrest. exact He.
      * discriminate.
  - intros e. simpl.
    induction IH as [ | [k x] rest Hx _ IHrest ]; [ discriminate | ].
    simpl in Hx.
    destruct (JSON_image x) as [e1 | o] eqn:Ex.
    + intros [= <-]. now apply Hx.
    + match goal with
      | |- context [match ?el rest with _ => _ end] =>
          destruct (el rest) as [e2 | rest'] eqn:Er
      end.
      * intros He. apply IHrest. exact He.
      * destruct o; discriminate.
Qed.

(** An array with a BigInt among its elements has no JSON text. *)
Lemma JSON_image_bigint_element (z : Z) (items : list value) :
  In (VBigInt z) items -> JSON_image (VArr items) = inl bigint_error.
Proof.
  intros Hin.
  assert (F : exists e, JSON_image (VArr items) = inl e).
  { induction items as [ | x rest IH ]; [ contradiction | ].
    simpl. destruct (JSON_image x) as [e1 | o] eqn:Ex; [ now exists e1 | ].
    destruct Hin as [-> | Hin]; [ discriminate Ex | ].
    destruct (IH Hin) as [e He]. simpl in He.
    match goal with
    | |- context [match ?el rest with _ => _ end] =>
        destruct (el rest) as [e2 | rest'] eqn:Er
    end.
    - now exists e2.
    - discriminate He. }
  destruct F as [e He]. now rewrite He, (JSON_image_error _ _ He).
Qed.

(** An argument list with a BigInt in it is sent as a list. *)
Lemma extractParams_bigint (z : Z) (params : list value) :
  In (VBigInt z) params -> extractParams params = VArr params.
Proof.
  destruct params as [ | v [ | v' rest ] ]; [ contradiction | | reflexivity ].
  intros [-> | []]. reflexivity.
Qed.

(** X4. What [extractParams] returns is [undefined] exactly when the call
    has no arguments, and for every other call it is a value that [typeof]
    calls an object: an array, an object or [null], never a primitive
    value. One [undefined] argument is still a list of one element. *)
Theorem extractParams_shape (params : list value) :
  (extractParams params = VUndefined <-> params = []) /\
  (params <> [] -> typeof (extractParams params) = "object").
Proof.
  split; [ split | ].
  - destruct params as [ | v [ | v' rest ] ]; [ reflexivity | | discriminate ].
    unfold extractParams. simpl.
    destruct (String.eqb_spec (typeof v) "object") as [Ht | Ht];
      [ | discriminate ].
    destruct (Array_isArray v); simpl; [ discriminate | ].
    intros ->. discriminate Ht.
  - now intros ->.
  - intros Hne. destruct params as [ | v [ | v' rest ] ];
      [ contradiction | | reflexivity ].
    unfold extractParams. simpl.
    destruct (String.eqb_spec (typeof v) "object") as [Ht | Ht];
      [ | reflexivity ].
    destruct (Array_isArray v); simpl; [ reflexivity | exact Ht ].
Qed.

Lemma extractParams_shape_witness :
  typeof (extractParams [VUndefined]) = "object".
Proof.
  apply (proj2 (extractParams_shape [VUndefined])). discriminate.
Defined.

(** ** The request pipeline, further *)

Section PipelineMore.

Context {W : Type} {P : Platform}.

Implicit Types (o : @RPCFetchOptions W) (w : W).

(** X5. The transport options are merged key by key: an option of
    [fetchOptions] wins, a default stays where [fetchOptions] has no such
    key. The defaults are the method POST and the JSON content type. *)
Theorem generateRequestInit_lookup o (k : string) :
  generateRequestInit o !! k
  = match userRequestInit o !! k with
    | Some v => Some v
    | None =>
        if String.eqb k "headers"
        then Some (IHeaders [("Content-Type", "application/json")])
        else if String.eqb k "method" then Some (IString (Raw "POST"))
        else None
    end.
Proof.
  unfold generateRequestInit. rewrite lookup_union.
  destruct (userRequestInit o !! k) as [v | ] eqn:Eu.
  - now destruct (defaultRequestInit !! k).
  - unfold defaultRequestInit.
    destruct (String.eqb_spec k "headers") as [-> | Hh]; [ reflexivity | ].
    rewrite lookup_insert_ne by congruence.
    destruct (String.eqb_spec k "method") as [-> | Hm]; [ reflexivity | ].
    now rewrite lookup_singleton_ne by congruence.
Qed.

(** X6. The request that [request] passes to the before-send hook, and
    without such a hook to the transport, has the serialised envelope as
    its body, whatever [fetchOptions] says about a body: reading the body
    back gives [jsonrpc] 2.0, the method, the JSON image of the parameters
    and the generated id. Every other option is the merged one. *)
Theorem prepare_envelope o method params w ctx w1 :
  (forall h, options o = Some h -> beforeFetch h = None) ->
  prepare o method params w = (inr ctx, w1) ->
  exists i p,
    generateId o w = (inr i, w1) /\
    JSON_field (extractParams params) = inr p /\
    parse_body (ctx_request ctx) = inr (mkRPCRequest "2.0" method p (Some i)) /\
    forall k, k <> "body" -> ctx_request ctx !! k = generateRequestInit o !! k.
Proof.
  intros Hb. unfold prepare, bind, lift, JSON_stringify_request.
  cbn [req_params req_jsonrpc req_method req_id].
  destruct (generateId o w) as [[t | i] w0]; [ discriminate | ].
  destruct (JSON_field (extractParams params)) as [t | p]; [ discriminate | ].
  destruct (URL_new (url o)) as [t | u]; [ discriminate | ].
  rewrite (hook_unset _ _ Hb). unfold ret. intros [= <- <-].
  exists i, p. repeat split.
  - cbn [ctx_request]. unfold parse_body. now rewrite lookup_insert_eq.
  - intros k Hk. cbn [ctx_request]. now rewrite lookup_insert_ne by congruence.
Qed.

(** X7. A BigInt among the arguments makes [request] throw the TypeError
    of [JSON.stringify] itself, once the id is generated: no promise is
    returned, and neither the hooks nor the transport get to run. *)
Theorem request_bigint o (fetch_ : @Fetch W) method params w z i w1 :
  In (VBigInt z) params ->
  generateId o w = (inr i, w1) ->
  request o fetch_ method params w = (inl bigint_error, w1).
Proof.
  intros Hin Hi. apply request_throws.
  unfold prepare, bind, lift, JSON_stringify_request, JSON_field.
  cbn [req_params]. rewrite Hi, (extractParams_bigint z _ Hin).
  now rewrite (JSON_image_bigint_element z _ Hin).
Qed.

(** X8. When [new URL] rejects the configured URL, [request] throws that
    error itself, after the id generator ran: the before-send hook and the
    transport are not called. *)
Theorem request_invalid_url o (fetch_ : @Fetch W) method params w i w1 p e :
  generateId o w = (inr i, w1) ->
  JSON_field (extractParams params) = inr p ->
  URL_new (url o) = inl e ->
  request o fetch_ method params w = (inl e, w1).
Proof.
  intros Hi Hp Hu. apply request_throws.
  unfold prepare, bind, lift, JSON_stringify_request.
  cbn [req_params]. now rewrite Hi, Hp, Hu.
Qed.

(** X9. When the on-error hook throws, the promise of the call is never
    settled: whatever failed in the [try] block, the caller gets neither a
    result nor a rejection. *)
Theorem request_hangs o (fetch_ : @Fetch W) method params w ctx w1 e w2 t w3 :
  prepare o method params w = (inr ctx, w1) ->
  thrown_in_try o fetch_ (ctx_url ctx) (ctx_request ctx) w1 e w2 ->
  hook o onError e w2 = (inl t, w3) ->
  request o fetch_ method params w = (inr Pending, w3).
Proof.
  intros Hp Ht Hh.
  rewrite (request_prepared _ _ _ _ _ _ _ Hp).
  rewrite (executor_caught _ _ _ _ _ _ _
             (thrown_in_try_attempt _ _ _ _ _ _ _ Ht)).
  now rewrite Hh.
Qed.

(** X10. An ok response whose body parses and has no error field: the
    on-response hook gets the context with [data] set to the result, and
    the call resolves with what the hook returns; the on-error hook is not
    called. *)
Theorem request_success
    o (fetch_ : @Fetch W) method params w ctx w1 r w2 rpc w3 ctx' w4 :
  prepare o method params w = (inr ctx, w1) ->
  fetch_ (ctx_url ctx) (ctx_request ctx) w1 = (inr r, w2) ->
  ok r = true ->
  json r w2 = (inr rpc, w3) ->
  res_error rpc = None ->
  hook o onResponse (mkResponseContext rpc r (res_result rpc)) w3
  = (inr ctx', w4) ->
  request o fetch_ method params w = (inr (Resolved ctx'), w4).
Proof.
  intros Hp Hf Hok Hj He Hh.
  rewrite (request_prepared _ _ _ _ _ _ _ Hp).
  unfold executor, try_catch, attempt, bind, ret.
  rewrite Hf, Hok. cbn [negb]. rewrite Hj, He, Hh. reflexivity.
Qed.

(** X11. An error field with a non-empty message: the RPCError that
    reaches the on-error hook has the code, the message and the data of
    the field, whatever the code is, and the call rejects with what the
    hook returns. *)
Theorem request_error_with_message
    o (fetch_ : @Fetch W) method params w ctx w1 r w2 rpc w3 e a m e' w4 :
  prepare o method params w = (inr ctx, w1) ->
  fetch_ (ctx_url ctx) (ctx_request ctx) w1 = (inr r, w2) ->
  ok r = true ->
  json r w2 = (inr rpc, w3) ->
  res_error rpc = Some e ->
  message e = String a m ->
  hook o onError (ERPC (mkRPCError "RPCError" (code e) (message e) (data e))) w3
  = (inr e', w4) ->
  request o fetch_ method params w = (inr (Rejected e'), w4).
Proof.
  intros Hp Hf Hok Hj He Hm Hh.
  apply (request_error_field o fetch_ method params w ctx w1 r w2 rpc w3 e
           (mkRPCError "RPCError" (code e) (message e) (data e)) e' w4);
    try assumption.
  rewrite Hm. apply RPCError_new_message.
Qed.

End PipelineMore.

Lemma prepare_envelope_witness :
  parse_body (P:=Fixtures.platform)
    (<[ "body" := IString (JSON (mkRPCRequest "2.0" "m" VUndefined
                                   (Some IdNull))) ]>
       (generateRequestInit (W:=unit) Fixtures.overriding))
  = inr (mkRPCRequest "2.0" "m" VUndefined (Some IdNull)).
Proof.
  destruct (prepare_envelope (P:=Fixtures.platform) (W:=unit)
              Fixtures.overriding "m" [] tt
              (mkRequestContext (mkURL Fixtures.endpoint)
                 (<[ "body" := IString (JSON (mkRPCRequest "2.0" "m" VUndefined
                                                (Some IdNull))) ]>
                    (generateRequestInit (W:=unit) Fixtures.overriding)))
              tt)
    as (i & p & Hi & Hp & Hb & _).
  - intros h Hh. discriminate Hh.
  - reflexivity.
  - injection Hi as <-. injection Hp as <-. exact Hb.
Defined.

Lemma request_bigint_witness :
  Fixtures.call (W:=unit) Fixtures.plain Fixtures.success "m"
    [VNum (num_of_Z 1); VBigInt 2] tt
  = (inl bigint_error, tt).
Proof.
  apply (request_bigint (P:=Fixtures.platform) Fixtures.plain Fixtures.success
           "m" [VNum (num_of_Z 1); VBigInt 2] tt 2%Z IdNull tt).
  - simpl. auto.
  - reflexivity.
Defined.

Lemma request_invalid_url_witness :
  Fixtures.call (W:=unit) Fixtures.relative Fixtures.success "m" [] tt
  = (inl (ETypeError "Invalid URL"), tt).
Proof.
  apply (request_invalid_url (P:=Fixtures.platform) Fixtures.relative
           Fixtures.success "m" [] tt IdNull tt VUndefined);
    reflexivity.
Defined.

Lemma request_hangs_witness :
  Fixtures.call (W:=unit) Fixtures.rethrowing Fixtures.broken "m" [] tt
  = (inr Pending, tt).
Proof.
  refine (request_hangs (P:=Fixtures.platform) Fixtures.rethrowing
            Fixtures.broken "m" [] tt (Fixtures.plain_context "m") tt
            Fixtures.boom tt Fixtures.boom tt _ _ _).
  - reflexivity.
  - apply transport_throws. reflexivity.
  - reflexivity.
Defined.

Lemma request_success_witness :
  Fixtures.call (W:=unit) Fixtures.plain (fun _ _ => ret Fixtures.reply_x1)
    "m" [] tt
  = (inr (Resolved
            (mkResponseContext (mkRPCResponse "2.0" Fixtures.x1 None (Some IdNull))
               Fixtures.reply_x1 Fixtures.x1)), tt).
Proof.
  refine (request_success (P:=Fixtures.platform) Fixtures.plain
            (fun _ _ => ret Fixtures.reply_x1) "m" [] tt
            (Fixtures.plain_context "m") tt Fixtures.reply_x1 tt
            (mkRPCResponse "2.0" Fixtures.x1 None (Some IdNull)) tt _ tt
            _ _ _ _ _ _); reflexivity.
Defined.

Lemma request_error_with_message_witness :
  Fixtures.call (W:=unit) Fixtures.plain Fixtures.refusing "m" [] tt
  = (inr (Rejected
            (ERPC (mkRPCError "RPCError" (num_of_Z 403) "denied" VNull))), tt).
Proof.
  refine (request_error_with_message (P:=Fixtures.platform) Fixtures.plain
            Fixtures.refusing "m" [] tt (Fixtures.plain_context "m") tt
            Fixtures.reply_denied tt Fixtures.denied tt
            (mkRPCError "Error" (num_of_Z 403) "denied" VNull)
            "d"%char "enied" _ tt _ _ _ _ _ _ _); reflexivity.
Defined.

(** ** Calls through the mock transport *)

Section MockMore.

Context {W : Type} {P : Platform}.

Implicit Types (o : @RPCFetchOptions W) (w : W)
  (actions : gmap string (@MockRPCAction W)) (action : @MockRPCAction W).

(** The body the mock decodes is the envelope, when no before-send hook
    is set. *)
Lemma prepare_for_mock o method params w i w1 p u :
  (forall h, options o = Some h -> beforeFetch h = None) ->
  generateId o w = (inr i, w1) ->
  JSON_field (extractParams params) = inr p ->
  URL_new (url o) = inr u ->
  exists ctx,
    prepare o method params w = (inr ctx, w1) /\
    ctx_request ctx
    = <[ "body" := IString (JSON (mkRPCRequest "2.0" method p (Some i))) ]>
        (generateRequestInit o) /\
    parse_body (ctx_request ctx) = inr (mkRPCRequest "2.0" method p (Some i)).
Proof.
  intros Hb Hi Hp Hu. eexists. split; [ | split ].
  - exact (prepare_no_hook o method params w i w1 p u Hb Hi Hp Hu).
  - reflexivity.
  - apply parse_body_insert.
Qed.

(** X12. A call through the mock transport to a handler that returns a
    response without an error field, with no before-send and no
    on-response hook: the handler gets the envelope of the call, and the
    call resolves with the JSON image of the handler's result as [data],
    under the id of the call when that id is truthy and under the
    handler's id otherwise. *)
Theorem mock_round_trip o actions action method params w i w1 p u r w2 res :
  (forall h, options o = Some h -> beforeFetch h = None) ->
  (forall h, options o = Some h -> onResponse h = None) ->
  generateId o w = (inr i, w1) ->
  JSON_field (extractParams params) = inr p ->
  URL_new (url o) = inr u ->
  actions !! method = Some action ->
  action (mkRPCRequest "2.0" method p (Some i))
    (<[ "body" := IString (JSON (mkRPCRequest "2.0" method p (Some i))) ]>
       (generateRequestInit o)) w1
  = (inr (inl r), w2) ->
  res_error r = None ->
  JSON_field (res_result r) = inr res ->
  exists ctx,
    request o (createMockFetch actions) method params w
    = (inr (Resolved ctx), w2) /\
    ctx_data ctx = res /\
    rpcResponse ctx
    = mkRPCResponse (res_jsonrpc r) res None
        (if truthy_id (Some i) then Some i else res_id r) /\
    ok (response ctx) = true /\
    r_status (response ctx) = num_of_Z 200.
Proof.
  intros Hb Hr Hi Hp Hu Ha Hact He Hres.
  destruct (prepare_for_mock o method params w i w1 p u Hb Hi Hp Hu)
    as (ctx & Hprep & Hreq & Hbody).
  rewrite (request_prepared _ _ _ _ _ _ _ Hprep).
  rewrite Hreq in Hbody |- *.
  set (rq := mkRPCRequest "2.0" method p (Some i)) in *.
  pose proof (mock_registered actions (ctx_url ctx) _ w1 rq action r w2
                Hbody Ha Hact) as Hm.
  assert (Hs : JSON_stringify_response (stamped rq r)
               = inr (JSON (mkRPCResponse (res_jsonrpc r) res None
                              (if truthy_id (Some i) then Some i
                               else res_id r)))).
  { unfold JSON_stringify_response, stamped.
    cbn [res_result res_error res_jsonrpc res_id req_id rq].
    now rewrite Hres, He. }
  rewrite Hs, Response_new_OK in Hm.
  unfold executor, try_catch, attempt, bind. rewrite Hm.
  cbn [ok negb json body_json]. unfold ret at 1. cbn [res_error res_result].
  rewrite (hook_unset _ _ Hr). unfold ret.
  eexists. split; [ reflexivity | repeat split ].
Qed.

(** X13. A call through the mock transport to a handler that returns a
    response with an error field that has a message, with no before-send
    hook: the pipeline throws to its [catch] block the RPCError with the
    code and the message of the field and the JSON image of its data, and
    the call ends as the on-error hook decides; without that hook it
    rejects with the RPCError. The on-response hook is not called. *)
Theorem mock_error_round_trip
    o actions action method params w i w1 p u r w2 e a m res d :
  (forall h, options o = Some h -> beforeFetch h = None) ->
  generateId o w = (inr i, w1) ->
  JSON_field (extractParams params) = inr p ->
  URL_new (url o) = inr u ->
  actions !! method = Some action ->
  action (mkRPCRequest "2.0" method p (Some i))
    (<[ "body" := IString (JSON (mkRPCRequest "2.0" method p (Some i))) ]>
       (generateRequestInit o)) w1
  = (inr (inl r), w2) ->
  res_error r = Some e ->
  message e = String a m ->
  JSON_field (res_result r) = inr res ->
  JSON_field (data e) = inr d ->
  request o (createMockFetch actions) method params w
  = match hook o onError
            (ERPC (mkRPCError "RPCError" (code e) (message e) d)) w2 with
    | (inr e', w3) => (inr (Rejected e'), w3)
    | (inl _, w3) => (inr Pending, w3)
    end /\
  ((forall h, options o = Some h -> onError h = None) ->
   request o (createMockFetch actions) method params w
   = (inr (Rejected (ERPC (mkRPCError "RPCError" (code e) (message e) d))),
      w2)).
Proof.
  intros Hb Hi Hp Hu Ha Hact He Hmsg Hres Hd.
  destruct (prepare_for_mock o method params w i w1 p u Hb Hi Hp Hu)
    as (ctx & Hprep & Hreq & Hbody).
  rewrite Hreq in Hbody.
  set (rq := mkRPCRequest "2.0" method p (Some i)) in *.
  pose proof (mock_registered actions (ctx_url ctx) _ w1 rq action r w2
                Hbody Ha Hact) as Hm.
  set (sent := mkRPCResponse (res_jsonrpc r) res
                 (Some (mkRPCError (rpc_name e) (code e) (message e) d))
                 (if truthy_id (Some i) then Some i else res_id r)).
  assert (Hs : JSON_stringify_response (stamped rq r) = inr (JSON sent)).
  { unfold JSON_stringify_response, stamped, JSON_stringify_error.
    cbn [res_result res_error res_jsonrpc res_id req_id rq].
    now rewrite Hres, He, Hd. }
  rewrite Hs, Response_new_OK in Hm. rewrite <- Hreq in Hm.
  assert (Hq : request o (createMockFetch actions) method params w
               = match hook o onError
                         (ERPC (mkRPCError "RPCError" (code e) (message e) d))
                         w2 with
                 | (inr e', w3) => (inr (Rejected e'), w3)
                 | (inl _, w3) => (inr Pending, w3)
                 end).
  { rewrite (request_prepared _ _ _ _ _ _ _ Hprep).
    rewrite (executor_caught _ _ _ _ _
               (ERPC (mkRPCError "RPCError" (code e) (message e) d)) w2).
    - now destruct (hook o onError _ w2) as [[t | e'] w3].
    - rewrite (attempt_error_field o _ _ _ _ _ _ sent w2
                 (mkRPCError (rpc_name e) (code e) (message e) d)
                 Hm eq_refl eq_refl eq_refl).
      cbn [code message data]. rewrite Hmsg.
      now rewrite RPCError_new_message. }
  split; [ exact Hq | ].
  intros Hnone. rewrite Hq, (hook_unset _ _ Hnone). reflexivity.
Qed.

(** An integer in the range of [unsigned short] is its own conversion. *)
Lemma to_unsigned_short_Z (s : Z) :
  (0 <= s < 65536)%Z -> to_unsigned_short (num_of_Z s) = s.
Proof.
  intros Hs. unfold to_unsigned_short, num_of_Z.
  assert (L : Qle_bool 0 (inject_Z s) = true).
  { apply Qle_bool_iff. change 0%Q with (inject_Z 0). rewrite <- Zle_Qle. lia. }
  rewrite L, Qfloor_Z. now apply Z.mod_small.
Qed.

(** X14. A call through the mock transport to a handler that returns
    [new HttpError(s, t)], for an integer status [s] from 300 to 599 other
    than 304 and a status text [t] that is a reason phrase, with no
    before-send hook: the call rejects with an HttpError equal to the
    handler's, and no hook is called after the transport. *)
Theorem mock_http_error o actions action method params w i w1 p u s t w2 :
  (forall h, options o = Some h -> beforeFetch h = None) ->
  generateId o w = (inr i, w1) ->
  JSON_field (extractParams params) = inr p ->
  URL_new (url o) = inr u ->
  actions !! method = Some action ->
  action (mkRPCRequest "2.0" method p (Some i))
    (<[ "body" := IString (JSON (mkRPCRequest "2.0" method p (Some i))) ]>
       (generateRequestInit o)) w1
  = (inr (inr (HttpError_new Number_toString (num_of_Z s) t)), w2) ->
  (300 <= s <= 599)%Z ->
  s <> 304%Z ->
  is_reason_phrase t = true ->
  request o (createMockFetch actions) method params w
  = (inr (Rejected (EHttp (HttpError_new Number_toString (num_of_Z s) t))),
     w2).
Proof.
  intros Hb Hi Hp Hu Ha Hact Hs H304 Ht.
  destruct (prepare_for_mock o method params w i w1 p u Hb Hi Hp Hu)
    as (ctx & Hprep & Hreq & Hbody).
  rewrite (request_prepared _ _ _ _ _ _ _ Hprep).
  rewrite Hreq in Hbody |- *.
  assert (Hm : createMockFetch actions (ctx_url ctx)
                 (<[ "body" := IString (JSON (mkRPCRequest "2.0" method p
                                                (Some i))) ]>
                    (generateRequestInit o)) w1
               = (inr (mkResponse false (num_of_Z s) t
                         (body_json
                            (Raw (http_message
                                    (HttpError_new Number_toString
                                       (num_of_Z s) t))))), w2)).
  { unfold createMockFetch, bind, lift. rewrite Hbody.
    cbn beta iota. cbn [req_method]. unfold MockRPCAction in *.
    rewrite Ha, Hact. unfold Response_new.
    cbn [init_status init_statusText status statusText HttpError_new].
    rewrite to_unsigned_short_Z by lia. rewrite Ht.
    replace ((200 <=? s)%Z && (s <=? 599)%Z) with true
      by (symmetry; apply andb_true_iff; split; apply Z.leb_le; lia).
    replace (is_null_body_status s) with false.
    2:{ unfold is_null_body_status. symmetry.
        repeat (apply orb_false_iff; split); apply Z.eqb_neq; lia. }
    replace ((200 <=? s)%Z && (s <=? 299)%Z) with false.
    2:{ symmetry. apply andb_false_iff. right. apply Z.leb_gt. lia. }
    reflexivity. }
  unfold executor, try_catch, attempt, bind. rewrite Hm. reflexivity.
Qed.

(** X15. A call through the mock transport to a handler that throws, with
    no before-send hook: the thrown value goes to the on-error hook, and
    without that hook the call rejects with it. *)
Theorem mock_handler_throws o actions action method params w i w1 p u e w2 :
  (forall h, options o = Some h -> beforeFetch h = None) ->
  generateId o w = (inr i, w1) ->
  JSON_field (extractParams params) = inr p ->
  URL_new (url o) = inr u ->
  actions !! method = Some action ->
  action (mkRPCRequest "2.0" method p (Some i))
    (<[ "body" := IString (JSON (mkRPCRequest "2.0" method p (Some i))) ]>
       (generateRequestInit o)) w1
  = (inl e, w2) ->
  request o (createMockFetch actions) method params w
  = match hook o onError e w2 with
    | (inr e', w3) => (inr (Rejected e'), w3)
    | (inl _, w3) => (inr Pending, w3)
    end /\
  ((forall h, options o = Some h -> onError h = None) ->
   request o (createMockFetch actions) method params w
   = (inr (Rejected e), w2)).
Proof.
  intros Hb Hi Hp Hu Ha Hact.
  destruct (prepare_for_mock o method params w i w1 p u Hb Hi Hp Hu)
    as (ctx & Hprep & Hreq & Hbody).
  rewrite Hreq in Hbody.
  assert (Hm : createMockFetch actions (ctx_url ctx) (ctx_request ctx) w1
               = (inl e, w2)).
  { rewrite Hreq. unfold createMockFetch, bind, lift. rewrite Hbody.
    cbn beta iota. cbn [req_method]. unfold MockRPCAction in *.
    now rewrite Ha, Hact. }
  assert (Hq : request o (createMockFetch actions) method params w
               = match hook o onError e w2 with
                 | (inr e', w3) => (inr (Rejected e'), w3)
                 | (inl _, w3) => (inr Pending, w3)
                 end).
  { rewrite (request_prepared _ _ _ _ _ _ _ Hprep).
    rewrite (executor_caught _ _ _ _ _ e w2).
    - now destruct (hook o onError e w2) as [[t | e'] w3].
    - unfold attempt, bind. now rewrite Hm. }
  split; [ exact Hq | ].
  intros Hnone. rewrite Hq, (hook_unset _ _ Hnone). reflexivity.
Qed.

End MockMore.

Lemma mock_round_trip_witness :
  exists ctx,
    Fixtures.call (W:=unit) Fixtures.plain
      (Fixtures.mock Fixtures.echo_actions) "echo"
      [VNum (num_of_Z 1); VUndefined] tt
    = (inr (Resolved ctx), tt) /\
    ctx_data ctx = Fixtures.x1 /\
    rpcResponse ctx = mkRPCResponse "2.0" Fixtures.x1 None (Some IdNull) /\
    ok (response ctx) = true /\
    r_status (response ctx) = num_of_Z 200.
Proof.
  refine (mock_round_trip (P:=Fixtures.platform) (W:=unit) Fixtures.plain
            Fixtures.echo_actions
            (fun _ _ => ret (inl (createMockRPCResponse Fixtures.x1)))
            "echo" [VNum (num_of_Z 1); VUndefined] tt IdNull tt
            (VArr [VNum (num_of_Z 1); VNull]) (mkURL Fixtures.endpoint)
            (createMockRPCResponse Fixtures.x1) tt Fixtures.x1
            _ _ _ _ _ _ _ _ _).
  - intros h Hh. discriminate Hh.
  - intros h Hh. discriminate Hh.
  - reflexivity.
  - reflexivity.
  - reflexivity.
  - reflexivity.
  - reflexivity.
  - reflexivity.
  - reflexivity.
Defined.

Lemma mock_error_round_trip_witness :
  Fixtures.call (W:=unit) Fixtures.plain
    (Fixtures.mock Fixtures.test_actions) "bad" [] tt
  = (inr (Rejected
            (ERPC (mkRPCError "RPCError" (num_of_Z (-32602)) "invalid params"
                     VUndefined))), tt).
Proof.
  refine (proj2
            (mock_error_round_trip (P:=Fixtures.platform) (W:=unit)
               Fixtures.plain Fixtures.test_actions
               (fun _ _ => ret (inl Fixtures.invalid_params))
               "bad" [] tt IdNull tt VUndefined (mkURL Fixtures.endpoint)
               Fixtures.invalid_params tt
               (mkRPCError "RPCError" (num_of_Z (-32602)) "invalid params"
                  VUndefined)
               "i"%char "nvalid params" VUndefined VUndefined
               _ _ _ _ _ _ _ _ _ _) _).
  - intros h Hh. discriminate Hh.
  - reflexivity.
  - reflexivity.
  - reflexivity.
  - reflexivity.
  - reflexivity.
  - reflexivity.
  - reflexivity.
  - reflexivity.
  - reflexivity.
  - intros h Hh. discriminate Hh.
Defined.

Lemma mock_http_error_witness :
  Fixtures.call (W:=unit) Fixtures.plain
    (Fixtures.mock Fixtures.test_actions) "down" [] tt
  = (inr (Rejected (EHttp Fixtures.unavailable)), tt).
Proof.
  refine (mock_http_error (P:=Fixtures.platform) (W:=unit)
            Fixtures.plain Fixtures.test_actions
            (fun _ _ => ret (inr Fixtures.unavailable))
            "down" [] tt IdNull tt VUndefined (mkURL Fixtures.endpoint)
            503%Z "Service Unavailable" tt _ _ _ _ _ _ _ _ _).
  - intros h Hh. discriminate Hh.
  - reflexivity.
  - reflexivity.
  - reflexivity.
  - reflexivity.
  - reflexivity.
  - lia.
  - lia.
  - reflexivity.
Defined.

Lemma mock_handler_throws_witness :
  Fixtures.call (W:=unit) Fixtures.plain
    (Fixtures.mock Fixtures.test_actions) "crash" [] tt
  = (inr (Rejected Fixtures.boom), tt).
Proof.
  refine (proj2
            (mock_handler_throws (P:=Fixtures.platform) (W:=unit)
               Fixtures.plain Fixtures.test_actions (fun _ _ => throw Fixtures.boom)
               "crash" [] tt IdNull tt VUndefined (mkURL Fixtures.endpoint)
               Fixtures.boom tt _ _ _ _ _ _) _).
  - intros h Hh. discriminate Hh.
  - reflexivity.
  - reflexivity.
  - reflexivity.
  - reflexivity.
  - reflexivity.
  - intros h Hh. discriminate Hh.
Defined.


